(** * Research-task tracker: the task store, the LLM client and the two adapters

    A shallow embedding of
      - [app/db/models.py]          the [research_tasks] table,
      - [app/llm/ollama_client.py]  [OllamaClient.generate],
      - [app/main.py]               the HTTP adapter (FastAPI),
      - [app/mcp_server.py]         the tool-call adapter (MCP),
    followed by the properties of the task life cycle that the specification
    states about them.

    Python code that touches the database, the network or the scheduler is
    written in a state-and-exception monad over a [World]; [try/except] and
    [try/finally] are combinators of that monad, so that "never raises" is a
    statement about the value a function returns. *)

From Stdlib Require Import ZArith List String Ascii Bool Lia DecimalString QArith.
Import ListNotations.

Local Open Scope Z_scope.
Local Open Scope string_scope.

(* ===================================================================== *)
(** ** Python values used by the code *)
(* ===================================================================== *)

Module Py.

(** Truth value of a [str]: the empty string is falsy. *)
Definition bool_str (s : string) : bool :=
  match s with
  | EmptyString => false
  | String _ _ => true
  end.

(** Truth value of an [int]: zero is falsy. *)
Definition bool_int (z : Z) : bool := negb (Z.eqb z 0).

(** The truth test of an [Optional[...]] [x], with narrowing: [Some a] when
    [x] holds a truthy [a], [None] when [x] is [None] or holds a falsy value.
    After [if not x: return ...] the code goes on with [x] the value [a]. *)
Definition truthy {A : Type} (truth : A -> bool) (x : option A) : option A :=
  match x with
  | Some a => if truth a then Some a else None
  | None => None
  end.

(** [x or d] for [x : Optional[str]] and a string [d]. *)
Definition or_str (x : option string) (d : string) : string :=
  match truthy bool_str x with
  | Some s => s
  | None => d
  end.

(** [str(n)] for an [int], as an f-string renders it. *)
Definition str_int (z : Z) : string :=
  NilZero.string_of_int (Z.to_int z).

(** The newline character of ["\n"]. *)
Definition nl : string := String "010"%char EmptyString.

(** [sep.join(parts)]. *)
Definition join (sep : string) (parts : list string) : string :=
  String.concat sep parts.

End Py.

(* ===================================================================== *)
(** ** Exceptions *)
(* ===================================================================== *)

(** The exceptions that the code raises itself or that the libraries it
    calls raise into it.  Every one derives from Python's [Exception].
    Library exceptions carry the message [str(e)] renders. *)
Inductive Exception : Type :=
| HTTPException (status_code : Z) (detail : string)
    (* fastapi: raised by the handlers of main.py *)
| RequestValidationError (missing : string)
    (* fastapi: the request body does not fit the pydantic model *)
| ConnectionError (msg : string)
    (* requests: no connection, or no answer within the timeout *)
| HTTPError (msg : string)
    (* requests: raise_for_status on a 4xx or 5xx answer *)
| JSONDecodeError (msg : string)
    (* requests: the body of the answer is not JSON *)
| AttributeError (msg : string)
    (* Python: the decoded body has no method [get] *)
| OperationalError (msg : string)
    (* sqlalchemy: the database cannot be read or written *)
| InvalidRequestError (msg : string).
    (* sqlalchemy: the row of an object to refresh is gone *)

(* ===================================================================== *)
(** ** The data model: [app/db/models.py] and the pydantic models *)
(* ===================================================================== *)

(** A row of the table [research_tasks]. *)
Module ResearchTaskORM.
Record t : Type := mk {
  id : Z;                    (* Column(Integer, primary_key=True) *)
  query : string;            (* Column(String, nullable=False) *)
  status : string;           (* Column(String, default="pending") *)
  result : option string;    (* Column(String, nullable=True) *)
  timestamp : Z              (* Column(DateTime, default=utcnow) *)
}.
End ResearchTaskORM.

(** The response model of the HTTP adapter. *)
Module ResearchTask.
Record t : Type := mk {
  id : Z;
  query : string;
  status : string;
  result : option string;
  timestamp : Z
}.
End ResearchTask.

(* ===================================================================== *)
(** ** The LLM transport as the client sees it *)
(* ===================================================================== *)

(** The [options] member of the payload. *)
Record Options : Type := mkOptions {
  temperature : Q;
  num_predict : Z
}.

(** The JSON payload of [POST /api/generate]. *)
Record Payload : Type := mkPayload {
  model : string;
  prompt : string;
  options : Options
}.

(** One call of [requests.post(url, json=payload, timeout=...)]. *)
Record Request : Type := mkRequest {
  url : string;
  json : Payload;
  timeout : Z
}.

(** What the body of an answer decodes to.  Member values are strings or
    [null], as the generation endpoint has them ([{response: text}]). *)
Inductive JsonData : Type :=
| NotAnObject (type_name : string)
    (* a JSON list, string, number, boolean or null: a Python value of the
       named type, which has no [get] *)
| JsonObject (members : list (string * option string)).
    (* a JSON object, decoded to a [dict]: its items, each key once;
       [None] is [null] *)

(** The body of an answer. *)
Inductive Body : Type :=
| NotJson (msg : string)
    (* does not parse: [response.json()] raises with this message *)
| Json (data : JsonData).

(** An HTTP answer. *)
Record Response : Type := mkResponse {
  status_code : Z;
  reason : string;
  body : Body
}.

(** The outcome of one POST. *)
Inductive HttpOutcome : Type :=
| Unreachable (msg : string)       (* [requests.post] raises *)
| Answered (r : Response).

(* ===================================================================== *)
(** ** The world: database file, clock, scheduler and network *)
(* ===================================================================== *)

Record World : Type := mkWorld {
  research_tasks : list ResearchTaskORM.t;
    (* the rows of the table, in rowid order *)
  db_fault : option string;
    (* [Some msg]: the database is out of order and every round trip to it
       raises [OperationalError msg]; [None]: it works *)
  utcnow : Z;
    (* the reading of the clock, [datetime.datetime.utcnow()] *)
  background : list (Z * string);
    (* the write-back jobs scheduled and not yet run, oldest first: the
       arguments [(task_id, query)] of each *)
  endpoint : nat -> HttpOutcome;
    (* the outcome of the n-th POST to the generation endpoint *)
  posted : list Request
    (* the POSTs sent so far, oldest first *)
}.

Definition set_research_tasks (rows : list ResearchTaskORM.t) (w : World) : World :=
  {| research_tasks := rows;
     db_fault := db_fault w;
     utcnow := utcnow w;
     background := background w;
     endpoint := endpoint w;
     posted := posted w |}.

Definition set_background (jobs : list (Z * string)) (w : World) : World :=
  {| research_tasks := research_tasks w;
     db_fault := db_fault w;
     utcnow := utcnow w;
     background := jobs;
     endpoint := endpoint w;
     posted := posted w |}.

Definition set_posted (reqs : list Request) (w : World) : World :=
  {| research_tasks := research_tasks w;
     db_fault := db_fault w;
     utcnow := utcnow w;
     background := background w;
     endpoint := endpoint w;
     posted := reqs |}.

(* ===================================================================== *)
(** ** The monad of Python code: state and exceptions *)
(* ===================================================================== *)

Definition M (A : Type) : Type := World -> (Exception + A) * World.

Definition ret {A : Type} (a : A) : M A :=
  fun w => (inr a, w).

Definition bind {A B : Type} (m : M A) (k : A -> M B) : M B :=
  fun w =>
    match m w with
    | (inl e, w') => (inl e, w')
    | (inr a, w') => k a w'
    end.

Definition raise {A : Type} (e : Exception) : M A :=
  fun w => (inl e, w).

(** [try: m  except Exception as e: h e]. *)
Definition try_except {A : Type} (m : M A) (h : Exception -> M A) : M A :=
  fun w =>
    match m w with
    | (inl e, w') => h e w'
    | (inr a, w') => (inr a, w')
    end.

(** [try: m  finally: f].  The outcome of [m] stands unless [f] raises. *)
Definition try_finally {A : Type} (m : M A) (f : M unit) : M A :=
  fun w =>
    match m w with
    | (r, w') =>
        match f w' with
        | (inl e, w'') => (inl e, w'')
        | (inr _, w'') => (r, w'')
        end
    end.

Declare Scope py_scope.
Delimit Scope py_scope with py.
Notation "x <- m ;; k" := (bind m (fun x => k))
  (at level 61, m at next level, right associativity) : py_scope.
Notation "m ;; k" := (bind m (fun _ => k))
  (at level 61, right associativity) : py_scope.
Local Open Scope py_scope.

(** [str(e)]. *)
Definition str (e : Exception) : string :=
  match e with
  | HTTPException status_code detail => Py.str_int status_code ++ ": " ++ detail
  | RequestValidationError missing => missing
  | ConnectionError msg => msg
  | HTTPError msg => msg
  | JSONDecodeError msg => msg
  | AttributeError msg => msg
  | OperationalError msg => msg
  | InvalidRequestError msg => msg
  end.

(* ===================================================================== *)
(** ** The database session: [SessionLocal()] of [app/db/models.py] *)
(* ===================================================================== *)

Module Db.

Import ResearchTaskORM.

(** One round trip to the database file. *)
Definition round_trip : M unit :=
  fun w =>
    match db_fault w with
    | Some msg => (inl (OperationalError msg), w)
    | None => (inr tt, w)
    end.

(** The first row whose primary key is [task_id]. *)
Definition first (task_id : Z) (rows : list t) : option t :=
  find (fun r => Z.eqb (id r) task_id) rows.

(** [db.query(ResearchTaskORM).filter(ResearchTaskORM.id == task_id).first()] *)
Definition query_first (task_id : Z) : M (option t) :=
  round_trip ;;
  fun w => (inr (first task_id (research_tasks w)), w).

(** [db.query(ResearchTaskORM).all()] *)
Definition query_all : M (list t) :=
  round_trip ;;
  fun w => (inr (research_tasks w), w).

(** The key SQLite gives a new row of a table whose primary key is an
    INTEGER column: 1 in an empty table, one more than the largest key
    otherwise. *)
Definition next_id (rows : list t) : Z :=
  match map id rows with
  | [] => 1
  | i :: ids => fold_right Z.max i ids + 1
  end.

(** [db.add(task); db.commit()] for a new object built as
    [ResearchTaskORM(query=..., status=..., result=...)]: the row is
    inserted under a new key, with the clock's reading as its timestamp. *)
Definition add_commit (query : string) (status : string) (result : option string) : M t :=
  round_trip ;;
  fun w =>
    let task := {| id := next_id (research_tasks w);
                   query := query;
                   status := status;
                   result := result;
                   timestamp := utcnow w |} in
    (inr task, set_research_tasks (research_tasks w ++ [task]) w).

(** Assignments to the attributes of a loaded object. *)
Definition set_status (s : string) (task : t) : t :=
  {| id := id task; query := query task; status := s;
     result := result task; timestamp := timestamp task |}.

Definition set_result (r : option string) (task : t) : t :=
  {| id := id task; query := query task; status := status task;
     result := r; timestamp := timestamp task |}.

(** The rows after the object [task] is written back under its key. *)
Definition write_back (task : t) (rows : list t) : list t :=
  map (fun r => if Z.eqb (id r) (id task) then task else r) rows.

(** [db.commit()] with the loaded object [task] in the session. *)
Definition commit (task : t) : M unit :=
  round_trip ;;
  fun w => (inr tt, set_research_tasks (write_back task (research_tasks w)) w).

(** [db.refresh(task)]: the object is read again under its key. *)
Definition refresh (task : t) : M t :=
  round_trip ;;
  fun w =>
    match first (id task) (research_tasks w) with
    | Some r => (inr r, w)
    | None => (inl (OperationalError "Could not refresh instance"), w)
    end.

(** [db.close()] *)
Definition close : M unit := ret tt.

End Db.

(* ===================================================================== *)
(** ** [app/llm/ollama_client.py] *)
(* ===================================================================== *)

Module OllamaClient.

Record t : Type := mk { base_url : string }.

(** [OllamaClient()], with the default [base_url]. *)
Definition new : t := {| base_url := "http://localhost:11434" |}.

(** Defaults of [generate]. *)
Definition default_model : string := "codellama".
Definition default_temperature : Q := (2 # 10)%Q.
Definition default_max_tokens : Z := 512.

(** [requests.post(url, json=payload, timeout=timeout)] *)
Definition post (url : string) (payload : Payload) (timeout : Z) : M Response :=
  fun w =>
    let request := {| url := url; json := payload; timeout := timeout |} in
    let w' := set_posted (posted w ++ [request]) w in
    match endpoint w (List.length (posted w)) with
    | Unreachable msg => (inl (ConnectionError msg), w')
    | Answered r => (inr r, w')
    end.

(** [response.raise_for_status()]: raises on a 4xx or a 5xx status. *)
Definition raise_for_status (url : string) (response : Response) : M unit :=
  let code := status_code response in
  if Z.leb 400 code && Z.ltb code 500 then
    raise (HTTPError (Py.str_int code ++ " Client Error: " ++ reason response
                        ++ " for url: " ++ url))
  else if Z.leb 500 code && Z.ltb code 600 then
    raise (HTTPError (Py.str_int code ++ " Server Error: " ++ reason response
                        ++ " for url: " ++ url))
  else ret tt.

(** [response.json()] *)
Definition response_json (response : Response) : M JsonData :=
  match body response with
  | NotJson msg => raise (JSONDecodeError msg)
  | Json data => ret data
  end.

(** [d.get(key)] on a [dict]. *)
Definition dict_get (members : list (string * option string)) (key : string)
  : option string :=
  match find (fun kv => String.eqb (fst kv) key) members with
  | Some (_, v) => v
  | None => None
  end.

(** [data.get(key)] on whatever the body decoded to. *)
Definition get (data : JsonData) (key : string) : M (option string) :=
  match data with
  | JsonObject members => ret (dict_get members key)
  | NotAnObject type_name =>
      raise (AttributeError ("'" ++ type_name ++ "' object has no attribute 'get'"))
  end.

(** [OllamaClient.generate].  The [print] of the handler is not
    modelled: nothing reads the standard output. *)
Definition generate (self : t) (prompt : string) (model : string)
                    (temperature : Q) (max_tokens : Z) : M (option string) :=
  let url := base_url self ++ "/api/generate" in
  let payload := {| model := model;
                    prompt := prompt;
                    options := {| temperature := temperature;
                                  num_predict := max_tokens |} |} in
  try_except
    (response <- post url payload 60 ;;
     raise_for_status url response ;;
     data <- response_json response ;;
     get data "response")
    (fun e => ret None).

End OllamaClient.

(* ===================================================================== *)
(** ** The scheduler of background work *)
(* ===================================================================== *)

Module Scheduler.

(** [background_tasks.add_task(f, task_id, query)] of FastAPI and
    [asyncio.create_task(f(task_id, query))]: the call is queued and runs
    after the handler that queued it has returned. *)
Definition schedule (task_id : Z) (query : string) : M unit :=
  fun w => (inr tt, set_background (background w ++ [(task_id, query)]) w).

(** The scheduler runs the oldest job with the adapter's own write-back
    function [job]. *)
Definition run_next (job : Z -> string -> M unit) : M unit :=
  fun w =>
    match background w with
    | [] => (inr tt, w)
    | (task_id, query) :: rest => job task_id query (set_background rest w)
    end.

End Scheduler.

(** The fallback both adapters store or return when the LLM gave no text. *)
Definition no_result : string := "LLM did not return a result.".

(** The two prompts, as the f-strings of both adapters build them. *)
Definition strategy_prompt (query : string) : string :=
  "Generate a robust web scraping strategy for the following research query: '"
    ++ query ++ "'. Include anti-detection techniques.".

Definition analysis_prompt (content : string) : string :=
  "Analyze and summarize the following content for accuracy, relevance, and key points."
    ++ Py.nl ++ Py.nl ++ "Content:" ++ Py.nl ++ content.

(* ===================================================================== *)
(** ** [app/main.py]: the HTTP adapter *)
(* ===================================================================== *)

Module Main.

Module ResearchTaskRequest.
Record t : Type := mk { query : string }.
End ResearchTaskRequest.

Module ResearchTaskUpdate.
Record t : Type := mk {
  status : option string;     (* Optional[str] = None *)
  result : option string      (* Optional[str] = None *)
}.
End ResearchTaskUpdate.

Module ContentAnalysisRequest.
Record t : Type := mk { content : string }.
End ContentAnalysisRequest.

Module ContentAnalysisResponse.
Record t : Type := mk { analysis : string }.
End ContentAnalysisResponse.

Definition ollama_client : OllamaClient.t := OllamaClient.new.

(** [Depends(get_db)]: the handler runs with a session that is closed
    when it is over. *)
Definition get_db {A : Type} (handler : M A) : M A :=
  try_finally handler Db.close.

(** [ResearchTask(id=t.id, query=t.query, status=t.status,
    result=t.result, timestamp=t.timestamp)] *)
Definition ResearchTask_of (t : ResearchTaskORM.t) : ResearchTask.t :=
  {| ResearchTask.id := ResearchTaskORM.id t;
     ResearchTask.query := ResearchTaskORM.query t;
     ResearchTask.status := ResearchTaskORM.status t;
     ResearchTask.result := ResearchTaskORM.result t;
     ResearchTask.timestamp := ResearchTaskORM.timestamp t |}.

(** [GET /research] *)
Definition get_research_tasks : M (list ResearchTask.t) :=
  get_db
    (tasks <- Db.query_all ;;
     ret (map ResearchTask_of tasks)).

(** The background write-back. *)
Definition llm_generate_scraping_strategy (task_id : Z) (query : string) : M unit :=
  try_finally
    (task <- Db.query_first task_id ;;
     match task with
     | None => ret tt
     | Some task =>
         let prompt := strategy_prompt query in
         result <- OllamaClient.generate ollama_client prompt "codellama"
                     OllamaClient.default_temperature
                     OllamaClient.default_max_tokens ;;
         let task := Db.set_result (Some (Py.or_str result no_result)) task in
         let task := Db.set_status "completed" task in
         Db.commit task
     end)
    Db.close.

(** The handler of [POST /research]. *)
Definition create_research_task (task_req : ResearchTaskRequest.t) : M ResearchTask.t :=
  get_db
    (task <- Db.add_commit (ResearchTaskRequest.query task_req) "pending" None ;;
     task <- Db.refresh task ;;
     Scheduler.schedule (ResearchTaskORM.id task) (ResearchTaskORM.query task) ;;
     ret (ResearchTask_of task)).

(** The handler of [PATCH /research/{task_id}]. *)
Definition update_research_task (update : ResearchTaskUpdate.t) (task_id : Z)
  : M ResearchTask.t :=
  get_db
    (task <- Db.query_first task_id ;;
     match task with
     | None => raise (HTTPException 404 "Task not found")
     | Some task =>
         let task :=
           match ResearchTaskUpdate.status update with
           | Some status => Db.set_status status task
           | None => task
           end in
         let task :=
           match ResearchTaskUpdate.result update with
           | Some result => Db.set_result (Some result) task
           | None => task
           end in
         Db.commit task ;;
         task <- Db.refresh task ;;
         ret (ResearchTask_of task)
     end).

(** The handler of [POST /analyze]. *)
Definition analyze_content (request : ContentAnalysisRequest.t)
  : M ContentAnalysisResponse.t :=
  let prompt := analysis_prompt (ContentAnalysisRequest.content request) in
  analysis <- OllamaClient.generate ollama_client prompt "llama3.2"
                OllamaClient.default_temperature
                OllamaClient.default_max_tokens ;;
  ret {| ContentAnalysisResponse.analysis := Py.or_str analysis no_result |}.

(** [POST /research] as FastAPI serves it: the body is checked against
    [ResearchTaskRequest], whose one field [query: str] is required,
    before the handler runs.  [None] is a body without the field. *)
Definition post_research (query : option string) : M ResearchTask.t :=
  match query with
  | None => raise (RequestValidationError "query")
  | Some query => create_research_task {| ResearchTaskRequest.query := query |}
  end.

(** [POST /analyze] as FastAPI serves it, likewise. *)
Definition post_analyze (content : option string) : M ContentAnalysisResponse.t :=
  match content with
  | None => raise (RequestValidationError "content")
  | Some content => analyze_content {| ContentAnalysisRequest.content := content |}
  end.

End Main.

(* ===================================================================== *)
(** ** [app/mcp_server.py]: the tool-call adapter *)
(* ===================================================================== *)

Module McpServer.

Module TextContent.
Record t : Type := mk { type : string; text : string }.
End TextContent.

(** The envelope of a tool call.  [isError] is [False] unless the
    constructor is told otherwise, and the code never tells it. *)
Module CallToolResult.
Record t : Type := mk { content : list TextContent.t; isError : bool }.
End CallToolResult.

(** [CallToolResult(content=[TextContent(type="text", text=text)])] *)
Definition text_result (text : string) : CallToolResult.t :=
  {| CallToolResult.content :=
       [ {| TextContent.type := "text"; TextContent.text := text |} ];
     CallToolResult.isError := false |}.

(** The dictionary [arguments] of a tool call, read through [get] only.
    Each key the tools look up is absent ([None]) or holds a value of the
    type the tool's [inputSchema] declares for it. *)
Module Args.
Record t : Type := mk {
  query : option string;
  task_id : option Z;
  status : option string;
  result : option string;
  content : option string
}.
End Args.

Definition ollama_client : OllamaClient.t := OllamaClient.new.

(** The background write-back. *)
Definition generate_llm_response (task_id : Z) (query : string) : M unit :=
  try_finally
    (task <- Db.query_first task_id ;;
     match task with
     | None => ret tt
     | Some task =>
         let prompt := strategy_prompt query in
         result <- OllamaClient.generate ollama_client prompt "codellama"
                     OllamaClient.default_temperature
                     OllamaClient.default_max_tokens ;;
         let task := Db.set_result (Some (Py.or_str result no_result)) task in
         let task := Db.set_status "completed" task in
         Db.commit task
     end)
    Db.close.

Definition create_research_task (arguments : Args.t) : M CallToolResult.t :=
  let query := Args.query arguments in
  match Py.truthy Py.bool_str query with
  | None => (* if not query *)
      ret (text_result "Error: query is required")
  | Some query =>
      try_finally
        (task <- Db.add_commit query "pending" None ;;
         task <- Db.refresh task ;;
         Scheduler.schedule (ResearchTaskORM.id task) query ;;
         ret (text_result
                ("Research task created with ID "
                   ++ Py.str_int (ResearchTaskORM.id task)
                   ++ ". Status: " ++ ResearchTaskORM.status task)))
        Db.close
  end.

(** One line of the listing. *)
Definition task_line (task : ResearchTaskORM.t) : string :=
  "ID: " ++ Py.str_int (ResearchTaskORM.id task)
    ++ ", Query: " ++ ResearchTaskORM.query task
    ++ ", Status: " ++ ResearchTaskORM.status task.

Definition list_research_tasks : M CallToolResult.t :=
  try_finally
    (tasks <- Db.query_all ;;
     match tasks with
     | [] => (* if not tasks *)
         ret (text_result "No research tasks found.")
     | _ :: _ =>
         let task_list := map task_line tasks in
         ret (text_result ("Research Tasks:" ++ Py.nl ++ Py.join Py.nl task_list))
     end)
    Db.close.

Definition update_research_task (arguments : Args.t) : M CallToolResult.t :=
  let task_id := Args.task_id arguments in
  let status := Args.status arguments in
  let result := Args.result arguments in
  match Py.truthy Py.bool_int task_id with
  | None => (* if not task_id *)
      ret (text_result "Error: task_id is required")
  | Some task_id =>
      try_finally
        (task <- Db.query_first task_id ;;
         match task with
         | None =>
             ret (text_result ("Task " ++ Py.str_int task_id ++ " not found"))
         | Some task =>
             let task :=
               match Py.truthy Py.bool_str status with
               | Some status => Db.set_status status task
               | None => task
               end in
             let task :=
               match Py.truthy Py.bool_str result with
               | Some result => Db.set_result (Some result) task
               | None => task
               end in
             Db.commit task ;;
             ret (text_result
                    ("Task " ++ Py.str_int task_id
                       ++ " updated successfully. Status: "
                       ++ ResearchTaskORM.status task))
         end)
        Db.close
  end.

Definition analyze_content (arguments : Args.t) : M CallToolResult.t :=
  let content := Args.content arguments in
  match Py.truthy Py.bool_str content with
  | None => (* if not content *)
      ret (text_result "Error: content is required")
  | Some content =>
      let prompt := analysis_prompt content in
      analysis <- OllamaClient.generate ollama_client prompt "llama3.2"
                    OllamaClient.default_temperature
                    OllamaClient.default_max_tokens ;;
      ret (text_result (Py.or_str analysis no_result))
  end.

(** The dispatcher of tool calls. *)
Definition handle_call_tool (name : string) (arguments : Args.t) : M CallToolResult.t :=
  try_except
    (if String.eqb name "create_research_task" then
       create_research_task arguments
     else if String.eqb name "list_research_tasks" then
       list_research_tasks
     else if String.eqb name "update_research_task" then
       update_research_task arguments
     else if String.eqb name "analyze_content" then
       analyze_content arguments
     else
       ret (text_result ("Unknown tool: " ++ name)))
    (fun e => ret (text_result ("Error: " ++ str e))).

(** The description of one argument in a tool's [inputSchema]: an entry
    of its ["properties"]. *)
Module SchemaProperty.
Record t : Type := mk { name : string; type : string; description : string }.
End SchemaProperty.

(** A tool's [inputSchema]. *)
Module InputSchema.
Record t : Type := mk {
  type : string;
  properties : list SchemaProperty.t;
  required : list string
}.
End InputSchema.

Module Tool.
Record t : Type := mk {
  name : string;
  description : string;
  inputSchema : InputSchema.t
}.
End Tool.

Module ListToolsResult.
Record t : Type := mk { tools : list Tool.t }.
End ListToolsResult.

(** The list of tools the server announces. *)
Definition handle_list_tools : ListToolsResult.t :=
  let tools :=
    [ {| Tool.name := "create_research_task";
         Tool.description := "Create a new research task with a query";
         Tool.inputSchema :=
           {| InputSchema.type := "object";
              InputSchema.properties :=
                [ {| SchemaProperty.name := "query";
                     SchemaProperty.type := "string";
                     SchemaProperty.description := "The research query to investigate" |} ];
              InputSchema.required := ["query"] |} |};
      {| Tool.name := "list_research_tasks";
         Tool.description := "List all research tasks";
         Tool.inputSchema :=
           {| InputSchema.type := "object";
              InputSchema.properties := [];
              InputSchema.required := [] |} |};
      {| Tool.name := "update_research_task";
         Tool.description := "Update the status or result of a research task";
         Tool.inputSchema :=
           {| InputSchema.type := "object";
              InputSchema.properties :=
                [ {| SchemaProperty.name := "task_id";
                     SchemaProperty.type := "integer";
                     SchemaProperty.description := "The ID of the task to update" |};
                  {| SchemaProperty.name := "status";
                     SchemaProperty.type := "string";
                     SchemaProperty.description := "New status for the task" |};
                  {| SchemaProperty.name := "result";
                     SchemaProperty.type := "string";
                     SchemaProperty.description := "New result for the task" |} ];
              InputSchema.required := ["task_id"] |} |};
      {| Tool.name := "analyze_content";
         Tool.description := "Analyze content using Llama 3.2";
         Tool.inputSchema :=
           {| InputSchema.type := "object";
              InputSchema.properties :=
                [ {| SchemaProperty.name := "content";
                     SchemaProperty.type := "string";
                     SchemaProperty.description := "Content to analyze" |} ];
              InputSchema.required := ["content"] |} |} ] in
  {| ListToolsResult.tools := tools |}.

End McpServer.
(* ===================================================================== *)
(** ** [streamlit_app.py]: the dashboard *)
(* ===================================================================== *)

(** The dashboard is a script that Streamlit runs again on every
    interaction; what is embedded here is what each of its widgets does with
    the values entered, as calls to the HTTP adapter.  A request of the
    dashboard is the call of the adapter's endpoint in the same world; its
    answer has status 200 exactly when the endpoint returns. *)
Module Dashboard.

(** What a widget shows after the request: [st.success], [st.error] with
    the answer of the server, or nothing when no request was made. *)
Inductive Shown : Type :=
| success (message : string)
| written (text : string)
| error (answer : Exception)
| nothing.

(** The form "Create a Research Task": [if submitted and query:]. *)
Definition submit_task (submitted : bool) (query : string) : World -> Shown * World :=
  fun w =>
    if submitted && Py.bool_str query then
      match Main.post_research (Some query) w with
      | (inr _, w') => (success "Task submitted!", w')
      | (inl e, w') => (error e, w')
      end
    else (nothing, w).

(** The button "Update Task": the PATCH carries both the status and the
    result as entered, [json={"status": new_status, "result": new_result}]. *)
Definition update_task (selected_id : Z) (new_status new_result : string)
  : World -> Shown * World :=
  fun w =>
    match Main.update_research_task
            {| Main.ResearchTaskUpdate.status := Some new_status;
               Main.ResearchTaskUpdate.result := Some new_result |}
            selected_id w with
    | (inr _, w') => (success "Task updated!", w')
    | (inl e, w') => (error e, w')
    end.

(** The text of the "Result" pane of a task: [t['result'] or "No result yet."]. *)
Definition result_shown (t : ResearchTask.t) : string :=
  Py.or_str (ResearchTask.result t) "No result yet.".


(** The defaults of the two inputs of the update form. *)
Definition default_new_status : string := "completed".
Definition default_new_result : string := EmptyString.

End Dashboard.

(* ===================================================================== *)
(** ** Failures of the LLM transport *)
(* ===================================================================== *)


(** The request [generate] posts. *)
Definition generate_request (self : OllamaClient.t) (prompt model : string)
                            (temperature : Q) (max_tokens : Z) : Request :=
  {| url := OllamaClient.base_url self ++ "/api/generate";
     json := {| model := model;
                prompt := prompt;
                options := {| temperature := temperature;
                              num_predict := max_tokens |} |};
     timeout := 60 |}.

(* ===================================================================== *)
(** ** Sample worlds *)
(* ===================================================================== *)

(** An endpoint that never answers. *)
Definition endpoint_down : nat -> HttpOutcome :=
  fun _ => Unreachable "Connection refused".

(** An endpoint that answers every POST with status 200 and the text. *)
Definition endpoint_saying (text : string) : nat -> HttpOutcome :=
  fun _ => Answered {| status_code := 200;
                       reason := "OK";
                       body := Json (JsonObject [("response", Some text)]) |}.


(** An endpoint that fails the first POST and would answer the second. *)
Definition endpoint_failing_once : nat -> HttpOutcome :=
  fun n =>
    match n with
    | O => Unreachable "Connection refused"
    | S _ => endpoint_saying "late" n
    end.

(** The world of a fresh installation: an empty table, no job scheduled,
    nothing posted. *)
Definition fresh_world (ep : nat -> HttpOutcome) : World :=
  {| research_tasks := [];
     db_fault := None;
     utcnow := 1700000000;
     background := [];
     endpoint := ep;
     posted := [] |}.

(** A pending task and a world that holds just it. *)
Definition laptop_task : ResearchTaskORM.t :=
  {| ResearchTaskORM.id := 1;
     ResearchTaskORM.query := "best laptop 2024";
     ResearchTaskORM.status := "pending";
     ResearchTaskORM.result := None;
     ResearchTaskORM.timestamp := 1700000000 |}.

Definition laptop_world (ep : nat -> HttpOutcome) : World :=
  {| research_tasks := [laptop_task];
     db_fault := None;
     utcnow := 1700000100;
     background := [(1, "best laptop 2024")];
     endpoint := ep;
     posted := [] |}.

(** The same task once completed with result [X], and its world. *)
Definition done_task : ResearchTaskORM.t :=
  {| ResearchTaskORM.id := 1;
     ResearchTaskORM.query := "best laptop 2024";
     ResearchTaskORM.status := "completed";
     ResearchTaskORM.result := Some "X";
     ResearchTaskORM.timestamp := 1700000000 |}.

Definition done_world : World :=
  {| research_tasks := [done_task];
     db_fault := None;
     utcnow := 1700000200;
     background := [];
     endpoint := endpoint_down;
     posted := [] |}.

(** A world whose database is out of order. *)
Definition locked_world : World :=
  {| research_tasks := [done_task];
     db_fault := Some "database is locked";
     utcnow := 1700000200;
     background := [];
     endpoint := endpoint_down;
     posted := [] |}.

(* ===================================================================== *)
(** ** Vocabulary of the statements *)
(* ===================================================================== *)

(** The keys of the rows of the store. *)
Definition task_ids (w : World) : list Z :=
  map ResearchTaskORM.id (research_tasks w).

(** The row a create inserts in a table holding [rows] when the clock
    reads [now]. *)
Definition pending_task (rows : list ResearchTaskORM.t) (now : Z) (query : string)
  : ResearchTaskORM.t :=
  {| ResearchTaskORM.id := Db.next_id rows;
     ResearchTaskORM.query := query;
     ResearchTaskORM.status := "pending";
     ResearchTaskORM.result := None;
     ResearchTaskORM.timestamp := now |}.

(** A loaded task after the assignments of an update: [status] and
    [result] hold what the update writes, [None] where it writes nothing. *)
Definition patched (status result : option string) (task : ResearchTaskORM.t)
  : ResearchTaskORM.t :=
  let task := match status with
              | Some s => Db.set_status s task
              | None => task
              end in
  match result with
  | Some r => Db.set_result (Some r) task
  | None => task
  end.

(** Keys as SQLite hands them out start at 1. *)
Definition keys_positive (w : World) : Prop :=
  Forall (fun k => 1 <= k) (task_ids w).

(** The store of [w'] holds the rows' keys of [w], and at most one more:
    the key of a row inserted into [w]. *)
Definition grows (w w' : World) : Prop :=
  task_ids w' = task_ids w
  \/ task_ids w' = (task_ids w ++ [Db.next_id (research_tasks w)])%list.

(** The body of the dispatcher's [try]. *)
Definition dispatch (name : string) (arguments : McpServer.Args.t)
  : M McpServer.CallToolResult.t :=
  if String.eqb name "create_research_task" then
    McpServer.create_research_task arguments
  else if String.eqb name "list_research_tasks" then
    McpServer.list_research_tasks
  else if String.eqb name "update_research_task" then
    McpServer.update_research_task arguments
  else if String.eqb name "analyze_content" then
    McpServer.analyze_content arguments
  else
    ret (McpServer.text_result ("Unknown tool: " ++ name)).

(** A completed task: what the write-back makes of [task] when the LLM
    client returned [text]. *)
Definition completed (text : option string) (task : ResearchTaskORM.t)
  : ResearchTaskORM.t :=
  Db.set_status "completed"
    (Db.set_result (Some (Py.or_str text no_result)) task).

(** The request of a write-back for [query], and of an analysis of
    [content]. *)
Definition strategy_request (query : string) : Request :=
  generate_request OllamaClient.new (strategy_prompt query) "codellama"
    OllamaClient.default_temperature OllamaClient.default_max_tokens.


(** What can happen to a world: a request to the HTTP adapter, a tool call,
    a scheduler running its oldest job, or a change in the surroundings
    (the database breaks or recovers, time passes, the endpoint changes its
    behaviour). *)
Inductive Call : Type :=
| HttpGetResearch
| HttpPostResearch (query : option string)
| HttpPatchResearch (update : Main.ResearchTaskUpdate.t) (task_id : Z)
| HttpPostAnalyze (content : option string)
| ToolCall (name : string) (arguments : McpServer.Args.t)
| HttpBackground
| ToolBackground
| Surroundings (fault : option string) (now : Z) (ep : nat -> HttpOutcome).

Definition perform (c : Call) (w : World) : World :=
  match c with
  | HttpGetResearch => snd (Main.get_research_tasks w)
  | HttpPostResearch query => snd (Main.post_research query w)
  | HttpPatchResearch update task_id => snd (Main.update_research_task update task_id w)
  | HttpPostAnalyze content => snd (Main.post_analyze content w)
  | ToolCall name arguments => snd (McpServer.handle_call_tool name arguments w)
  | HttpBackground => snd (Scheduler.run_next Main.llm_generate_scraping_strategy w)
  | ToolBackground => snd (Scheduler.run_next McpServer.generate_llm_response w)
  | Surroundings fault now ep =>
      {| research_tasks := research_tasks w;
         db_fault := fault;
         utcnow := now;
         background := background w;
         endpoint := ep;
         posted := posted w |}
  end.

(** A history: the calls one after the other. *)
Definition history (calls : list Call) (w : World) : World :=
  fold_left (fun w c => perform c w) calls w.

(** A tool handler, run in [w], either returns an envelope of one text block
    or raises. *)
Definition answers_or_raises (m : M McpServer.CallToolResult.t) (w : World) : Prop :=
  (exists (text : string) (w' : World), m w = (inr (McpServer.text_result text), w'))
  \/ (exists (e : Exception) (w' : World), m w = (inl e, w')).

(* ===================================================================== *)
(** ** Vocabulary of the further properties *)
(* ===================================================================== *)

(** The queue of [w'] is the queue of [w], or that queue without its
    oldest job. *)
Definition queue_shrinks (w w' : World) : Prop :=
  background w' = background w
  \/ exists job : Z * string, background w = job :: background w'.

(** How one call changes the store and the queue: it leaves the rows as
    they are; or it writes one loaded row back, with its key, query and
    timestamp as loaded; or it inserts one pending row and queues the
    write-back of that row. *)
Inductive evolves (w w' : World) : Prop :=
| evolves_same :
    research_tasks w' = research_tasks w ->
    queue_shrinks w w' ->
    evolves w w'
| evolves_written (task task' : ResearchTaskORM.t) :
    Db.first (ResearchTaskORM.id task') (research_tasks w) = Some task ->
    ResearchTaskORM.query task' = ResearchTaskORM.query task ->
    ResearchTaskORM.timestamp task' = ResearchTaskORM.timestamp task ->
    research_tasks w' = Db.write_back task' (research_tasks w) ->
    queue_shrinks w w' ->
    evolves w w'
| evolves_inserted (now : Z) (query : string) :
    research_tasks w'
    = (research_tasks w ++ [pending_task (research_tasks w) now query])%list ->
    background w'
    = (background w ++ [(Db.next_id (research_tasks w), query)])%list ->
    evolves w w'.

(** Every queued write-back is for a task in the store, with the query of
    that task. *)
Definition jobs_refer_to_tasks (w : World) : Prop :=
  forall (task_id : Z) (query : string),
    In (task_id, query) (background w) ->
    exists task : ResearchTaskORM.t,
      Db.first task_id (research_tasks w) = Some task
      /\ ResearchTaskORM.query task = query.


(** One create through the HTTP adapter for each query, in order. *)
Definition creates (queries : list string) (w : World) : World :=
  history (map (fun q => HttpPostResearch (Some q)) queries) w.

(** The world with every stored result blanked. *)
Definition without_results (w : World) : World :=
  set_research_tasks (map (Db.set_result None) (research_tasks w)) w.

(** The key [key] is missing in the dictionary [arguments]:
    [arguments.get(key)] is [None]. *)
Definition lacks (arguments : McpServer.Args.t) (key : string) : Prop :=
  (key = "query" /\ McpServer.Args.query arguments = None)
  \/ (key = "task_id" /\ McpServer.Args.task_id arguments = None)
  \/ (key = "status" /\ McpServer.Args.status arguments = None)
  \/ (key = "result" /\ McpServer.Args.result arguments = None)
  \/ (key = "content" /\ McpServer.Args.content arguments = None).

(** The text of an envelope of one text block. *)
Definition text_of (r : McpServer.CallToolResult.t) : option string :=
  match McpServer.CallToolResult.content r with
  | [block] => Some (McpServer.TextContent.text block)
  | _ => None
  end.

(* ===================================================================== *)
(** * Properties *)
(* ===================================================================== *)

(** ** The database session *)

Lemma round_trip_ok (w : World) :
  db_fault w = None -> Db.round_trip w = (inr tt, w).
Proof. intros H. unfold Db.round_trip. now rewrite H. Qed.

Lemma round_trip_fault (w : World) (msg : string) :
  db_fault w = Some msg -> Db.round_trip w = (inl (OperationalError msg), w).
Proof. intros H. unfold Db.round_trip. now rewrite H. Qed.

Lemma first_id (k : Z) (rows : list ResearchTaskORM.t) (t : ResearchTaskORM.t) :
  Db.first k rows = Some t -> ResearchTaskORM.id t = k.
Proof.
  unfold Db.first. intros H. apply find_some in H. destruct H as [_ H].
  now apply Z.eqb_eq.
Qed.

Lemma first_In (k : Z) (rows : list ResearchTaskORM.t) (t : ResearchTaskORM.t) :
  Db.first k rows = Some t -> In t rows.
Proof. unfold Db.first. intros H. now apply find_some in H. Qed.

Lemma first_None (k : Z) (rows : list ResearchTaskORM.t) :
  Db.first k rows = None <-> ~ In k (map ResearchTaskORM.id rows).
Proof.
  unfold Db.first. induction rows as [|r rows IH]; simpl.
  - tauto.
  - destruct (Z.eqb_spec (ResearchTaskORM.id r) k) as [E|E].
    + split; [discriminate | intros H; exfalso; apply H; now left].
    + rewrite IH. tauto.
Qed.

Lemma first_write_back (k : Z) (rows : list ResearchTaskORM.t)
      (old new : ResearchTaskORM.t) :
  Db.first k rows = Some old ->
  ResearchTaskORM.id new = k ->
  Db.first k (Db.write_back new rows) = Some new.
Proof.
  unfold Db.first, Db.write_back. intros H E. subst k.
  induction rows as [|r rows IH]; simpl in *; [discriminate|].
  destruct (Z.eqb_spec (ResearchTaskORM.id r) (ResearchTaskORM.id new)) as [E|E].
  - simpl. now rewrite Z.eqb_refl.
  - simpl. apply Z.eqb_neq in E. rewrite E. now apply IH.
Qed.

Lemma first_write_back_other (k : Z) (rows : list ResearchTaskORM.t)
      (new : ResearchTaskORM.t) :
  ResearchTaskORM.id new <> k ->
  Db.first k (Db.write_back new rows) = Db.first k rows.
Proof.
  unfold Db.first, Db.write_back. intros E.
  induction rows as [|r rows IH]; simpl; [reflexivity|].
  destruct (Z.eqb_spec (ResearchTaskORM.id r) (ResearchTaskORM.id new)) as [E'|E'].
  - rewrite E'. apply Z.eqb_neq in E. simpl. now rewrite E.
  - simpl. now rewrite IH.
Qed.

Lemma write_back_ids (new : ResearchTaskORM.t) (rows : list ResearchTaskORM.t) :
  map ResearchTaskORM.id (Db.write_back new rows) = map ResearchTaskORM.id rows.
Proof.
  unfold Db.write_back. induction rows as [|r rows IH]; simpl; [reflexivity|].
  rewrite IH. destruct (Z.eqb_spec (ResearchTaskORM.id r) (ResearchTaskORM.id new)) as [E|E];
    now rewrite ?E.
Qed.

(** ** The LLM client *)

(** [generate] returns, whatever the endpoint does, after one POST. *)
Lemma generate_returns (self : OllamaClient.t) (prompt model : string)
      (temperature : Q) (max_tokens : Z) (w : World) :
  exists text : option string,
    OllamaClient.generate self prompt model temperature max_tokens w
    = (inr text,
       set_posted (posted w ++ [generate_request self prompt model temperature max_tokens]) w).
Proof.
  unfold OllamaClient.generate, try_except, bind, OllamaClient.post, generate_request.
  destruct (endpoint w (List.length (posted w))) as [msg|r]; simpl.
  - now exists None.
  - unfold OllamaClient.raise_for_status.
    destruct (Z.leb 400 (status_code r) && Z.ltb (status_code r) 500); simpl.
    + now exists None.
    + destruct (Z.leb 500 (status_code r) && Z.ltb (status_code r) 600); simpl.
      * now exists None.
      * unfold OllamaClient.response_json.
        destruct (body r) as [msg|[ty|members]]; simpl.
        -- now exists None.
        -- now exists None.
        -- now eexists.
Qed.



(** No retry: when the first POST fails and a second one would be answered,
    [generate] still returns [None], with one request on the wire. *)
Example generate_does_not_retry :
  let '(r, w) := OllamaClient.generate OllamaClient.new "p" "codellama"
                   OllamaClient.default_temperature OllamaClient.default_max_tokens
                   (fresh_world endpoint_failing_once) in
  r = inr None /\ List.length (posted w) = 1%nat.
Proof. split; reflexivity. Qed.

(** ** The background write-back *)

(** The two adapters run the same write-back. *)
Lemma write_back_jobs_agree (task_id : Z) (query : string) :
  McpServer.generate_llm_response task_id query
  = Main.llm_generate_scraping_strategy task_id query.
Proof. reflexivity. Qed.

(** ** Keys *)

Lemma fold_max_upper (i : Z) (ids : list Z) (x : Z) :
  In x (i :: ids) -> x <= fold_right Z.max i ids.
Proof.
  induction ids as [|a ids IH]; simpl.
  - intros [E|[]]. lia.
  - intros [E|[E|H]].
    + assert (x <= fold_right Z.max i ids) by (apply IH; now left). lia.
    + lia.
    + assert (x <= fold_right Z.max i ids) by (apply IH; now right). lia.
Qed.

(** The key of a new row is larger than every key in the table. *)
Lemma next_id_above (rows : list ResearchTaskORM.t) (k : Z) :
  In k (map ResearchTaskORM.id rows) -> k < Db.next_id rows.
Proof.
  unfold Db.next_id. destruct (map ResearchTaskORM.id rows) as [|i ids].
  - intros [].
  - intros H. apply fold_max_upper in H. lia.
Qed.

Lemma next_id_fresh (rows : list ResearchTaskORM.t) :
  ~ In (Db.next_id rows) (map ResearchTaskORM.id rows).
Proof. intros H. apply next_id_above in H. lia. Qed.

Lemma next_id_positive (rows : list ResearchTaskORM.t) :
  Forall (fun k => 1 <= k) (map ResearchTaskORM.id rows) -> 1 <= Db.next_id rows.
Proof.
  intros H. unfold Db.next_id.
  destruct rows as [|r rows]; simpl; [lia|].
  simpl in H. inversion H; subst.
  assert (ResearchTaskORM.id r <= fold_right Z.max (ResearchTaskORM.id r)
                                    (map ResearchTaskORM.id rows))
    by (apply fold_max_upper; now left).
  lia.
Qed.

Lemma first_app_new (rows : list ResearchTaskORM.t) (t : ResearchTaskORM.t) :
  ~ In (ResearchTaskORM.id t) (map ResearchTaskORM.id rows) ->
  Db.first (ResearchTaskORM.id t) (rows ++ [t]) = Some t.
Proof.
  unfold Db.first. induction rows as [|r rows IH]; simpl; intros H.
  - now rewrite Z.eqb_refl.
  - destruct (Z.eqb_spec (ResearchTaskORM.id r) (ResearchTaskORM.id t)) as [E|E].
    + exfalso. apply H. now left.
    + apply IH. tauto.
Qed.

Lemma first_app_old (rows : list ResearchTaskORM.t) (t : ResearchTaskORM.t) (k : Z) :
  k <> ResearchTaskORM.id t ->
  Db.first k (rows ++ [t]) = Db.first k rows.
Proof.
  unfold Db.first. intros H. induction rows as [|r rows IH]; simpl.
  - destruct (Z.eqb_spec (ResearchTaskORM.id t) k); congruence.
  - now rewrite IH.
Qed.

(** ** What each operation does when the database works, and when it does not *)

Lemma http_create_ok (w : World) (query : string) :
  db_fault w = None ->
  let task := pending_task (research_tasks w) (utcnow w) query in
  Main.create_research_task {| Main.ResearchTaskRequest.query := query |} w
  = (inr (Main.ResearchTask_of task),
     set_background (background w ++ [(ResearchTaskORM.id task, query)])
       (set_research_tasks (research_tasks w ++ [task]) w)).
Proof.
  intros Hdb task.
  unfold Main.create_research_task, Main.get_db, try_finally, bind,
    Db.add_commit, Db.refresh, bind, Db.round_trip, Scheduler.schedule. simpl.
  rewrite Hdb. simpl. rewrite Hdb. simpl.
  pose proof (first_app_new (research_tasks w) task (next_id_fresh _)) as F.
  subst task. unfold pending_task in *. simpl in F. rewrite F.
  reflexivity.
Qed.

Lemma http_create_fault (w : World) (query msg : string) :
  db_fault w = Some msg ->
  Main.create_research_task {| Main.ResearchTaskRequest.query := query |} w
  = (inl (OperationalError msg), w).
Proof.
  intros Hdb.
  unfold Main.create_research_task, Main.get_db, try_finally, bind,
    Db.add_commit, bind, Db.round_trip. simpl.
  now rewrite Hdb.
Qed.

Lemma tool_create_ok (w : World) (arguments : McpServer.Args.t) (query : string) :
  db_fault w = None ->
  McpServer.Args.query arguments = Some query ->
  query <> EmptyString ->
  let task := pending_task (research_tasks w) (utcnow w) query in
  McpServer.create_research_task arguments w
  = (inr (McpServer.text_result
            ("Research task created with ID " ++ Py.str_int (ResearchTaskORM.id task)
               ++ ". Status: pending")),
     set_background (background w ++ [(ResearchTaskORM.id task, query)])
       (set_research_tasks (research_tasks w ++ [task]) w)).
Proof.
  intros Hdb Hq Hne task.
  unfold McpServer.create_research_task. rewrite Hq.
  destruct query as [|c q]; [contradiction|]. simpl Py.truthy. cbv iota.
  unfold try_finally, bind, Db.add_commit, Db.refresh, bind, Db.round_trip,
    Scheduler.schedule. simpl.
  rewrite Hdb. simpl. rewrite Hdb. simpl.
  pose proof (first_app_new (research_tasks w) task (next_id_fresh _)) as F.
  subst task. unfold pending_task in *. simpl in F. rewrite F.
  reflexivity.
Qed.

Lemma tool_create_fault (w : World) (arguments : McpServer.Args.t) (query msg : string) :
  db_fault w = Some msg ->
  McpServer.Args.query arguments = Some query ->
  query <> EmptyString ->
  McpServer.create_research_task arguments w = (inl (OperationalError msg), w).
Proof.
  intros Hdb Hq Hne.
  unfold McpServer.create_research_task. rewrite Hq.
  destruct query as [|c q]; [contradiction|]. simpl Py.truthy. cbv iota.
  unfold try_finally, bind, Db.add_commit, bind, Db.round_trip. simpl.
  now rewrite Hdb.
Qed.

Lemma tool_create_rejects (w : World) (arguments : McpServer.Args.t) :
  McpServer.Args.query arguments = None
  \/ McpServer.Args.query arguments = Some EmptyString ->
  McpServer.create_research_task arguments w
  = (inr (McpServer.text_result "Error: query is required"), w).
Proof.
  intros [H|H]; unfold McpServer.create_research_task; now rewrite H.
Qed.

Lemma patched_id (status result : option string) (task : ResearchTaskORM.t) :
  ResearchTaskORM.id (patched status result task) = ResearchTaskORM.id task.
Proof. now destruct status, result. Qed.

Lemma patched_query (status result : option string) (task : ResearchTaskORM.t) :
  ResearchTaskORM.query (patched status result task) = ResearchTaskORM.query task.
Proof. now destruct status, result. Qed.

Lemma patched_timestamp (status result : option string) (task : ResearchTaskORM.t) :
  ResearchTaskORM.timestamp (patched status result task)
  = ResearchTaskORM.timestamp task.
Proof. now destruct status, result. Qed.

Lemma patched_status (status result : option string) (task : ResearchTaskORM.t) :
  ResearchTaskORM.status (patched status result task)
  = match status with
    | Some s => s
    | None => ResearchTaskORM.status task
    end.
Proof. now destruct status, result. Qed.

Lemma patched_result (status result : option string) (task : ResearchTaskORM.t) :
  ResearchTaskORM.result (patched status result task)
  = match result with
    | Some r => Some r
    | None => ResearchTaskORM.result task
    end.
Proof. now destruct status, result. Qed.

Lemma first_after_patch (task_id : Z) (rows : list ResearchTaskORM.t)
      (task : ResearchTaskORM.t) (status result : option string) :
  Db.first task_id rows = Some task ->
  Db.first task_id (Db.write_back (patched status result task) rows)
  = Some (patched status result task).
Proof.
  intros H. eapply first_write_back; eauto.
  rewrite patched_id. eapply first_id; eauto.
Qed.

Lemma http_update_ok (w : World) (update : Main.ResearchTaskUpdate.t) (task_id : Z)
      (task : ResearchTaskORM.t) :
  db_fault w = None ->
  Db.first task_id (research_tasks w) = Some task ->
  let task' := patched (Main.ResearchTaskUpdate.status update)
                 (Main.ResearchTaskUpdate.result update) task in
  Main.update_research_task update task_id w
  = (inr (Main.ResearchTask_of task'),
     set_research_tasks (Db.write_back task' (research_tasks w)) w).
Proof.
  intros Hdb Hfirst task'.
  assert (Hid : ResearchTaskORM.id task' = task_id).
  { subst task'. rewrite patched_id. eapply first_id; eauto. }
  pose proof (first_write_back task_id (research_tasks w) task task' Hfirst Hid) as F.
  unfold Main.update_research_task, Main.get_db, try_finally, bind,
    Db.query_first, bind, Db.round_trip.
  rewrite Hdb, Hfirst.
  fold (patched (Main.ResearchTaskUpdate.status update)
          (Main.ResearchTaskUpdate.result update) task). fold task'.
  unfold Db.commit, Db.refresh, bind, Db.round_trip. simpl.
  rewrite Hdb. simpl. rewrite Hdb. simpl.
  rewrite Hid, F. reflexivity.
Qed.

Lemma http_update_missing (w : World) (update : Main.ResearchTaskUpdate.t) (task_id : Z) :
  db_fault w = None ->
  Db.first task_id (research_tasks w) = None ->
  Main.update_research_task update task_id w
  = (inl (HTTPException 404 "Task not found"), w).
Proof.
  intros Hdb Hfirst.
  unfold Main.update_research_task, Main.get_db, try_finally, bind,
    Db.query_first, bind, Db.round_trip.
  now rewrite Hdb, Hfirst.
Qed.

Lemma http_update_fault (w : World) (update : Main.ResearchTaskUpdate.t) (task_id : Z)
      (msg : string) :
  db_fault w = Some msg ->
  Main.update_research_task update task_id w = (inl (OperationalError msg), w).
Proof.
  intros Hdb.
  unfold Main.update_research_task, Main.get_db, try_finally, bind,
    Db.query_first, bind, Db.round_trip.
  now rewrite Hdb.
Qed.

Lemma truthy_str_nonempty (s : string) :
  s <> EmptyString -> Py.truthy Py.bool_str (Some s) = Some s.
Proof. intros H. destruct s; [contradiction|reflexivity]. Qed.

Lemma truthy_int_nonzero (task_id : Z) :
  task_id <> 0 -> Py.truthy Py.bool_int (Some task_id) = Some task_id.
Proof.
  intros H. unfold Py.truthy, Py.bool_int.
  destruct (Z.eqb_spec task_id 0); [contradiction|reflexivity].
Qed.

Lemma tool_update_ok (w : World) (arguments : McpServer.Args.t) (task_id : Z)
      (task : ResearchTaskORM.t) :
  db_fault w = None ->
  McpServer.Args.task_id arguments = Some task_id ->
  task_id <> 0 ->
  Db.first task_id (research_tasks w) = Some task ->
  let task' := patched (Py.truthy Py.bool_str (McpServer.Args.status arguments))
                 (Py.truthy Py.bool_str (McpServer.Args.result arguments)) task in
  McpServer.update_research_task arguments w
  = (inr (McpServer.text_result
            ("Task " ++ Py.str_int task_id ++ " updated successfully. Status: "
               ++ ResearchTaskORM.status task')),
     set_research_tasks (Db.write_back task' (research_tasks w)) w).
Proof.
  intros Hdb Hid Hnz Hfirst task'.
  unfold McpServer.update_research_task. rewrite Hid, (truthy_int_nonzero _ Hnz).
  unfold try_finally, bind, Db.query_first, bind, Db.round_trip.
  rewrite Hdb, Hfirst.
  fold (patched (Py.truthy Py.bool_str (McpServer.Args.status arguments))
          (Py.truthy Py.bool_str (McpServer.Args.result arguments)) task). fold task'.
  unfold Db.commit, bind, Db.round_trip. simpl.
  rewrite Hdb. reflexivity.
Qed.

Lemma tool_update_missing (w : World) (arguments : McpServer.Args.t) (task_id : Z) :
  db_fault w = None ->
  McpServer.Args.task_id arguments = Some task_id ->
  task_id <> 0 ->
  Db.first task_id (research_tasks w) = None ->
  McpServer.update_research_task arguments w
  = (inr (McpServer.text_result ("Task " ++ Py.str_int task_id ++ " not found")), w).
Proof.
  intros Hdb Hid Hnz Hfirst.
  unfold McpServer.update_research_task. rewrite Hid, (truthy_int_nonzero _ Hnz).
  unfold try_finally, bind, Db.query_first, bind, Db.round_trip.
  now rewrite Hdb, Hfirst.
Qed.

Lemma tool_update_fault (w : World) (arguments : McpServer.Args.t) (task_id : Z)
      (msg : string) :
  db_fault w = Some msg ->
  McpServer.Args.task_id arguments = Some task_id ->
  task_id <> 0 ->
  McpServer.update_research_task arguments w = (inl (OperationalError msg), w).
Proof.
  intros Hdb Hid Hnz.
  unfold McpServer.update_research_task. rewrite Hid, (truthy_int_nonzero _ Hnz).
  unfold try_finally, bind, Db.query_first, bind, Db.round_trip.
  now rewrite Hdb.
Qed.

Lemma tool_update_required (w : World) (arguments : McpServer.Args.t) :
  McpServer.Args.task_id arguments = None
  \/ McpServer.Args.task_id arguments = Some 0 ->
  McpServer.update_research_task arguments w
  = (inr (McpServer.text_result "Error: task_id is required"), w).
Proof.
  intros [H|H]; unfold McpServer.update_research_task; now rewrite H.
Qed.

Lemma http_list_ok (w : World) :
  db_fault w = None ->
  Main.get_research_tasks w = (inr (map Main.ResearchTask_of (research_tasks w)), w).
Proof.
  intros Hdb.
  unfold Main.get_research_tasks, Main.get_db, try_finally, bind,
    Db.query_all, bind, Db.round_trip.
  now rewrite Hdb.
Qed.

Lemma http_list_fault (w : World) (msg : string) :
  db_fault w = Some msg ->
  Main.get_research_tasks w = (inl (OperationalError msg), w).
Proof.
  intros Hdb.
  unfold Main.get_research_tasks, Main.get_db, try_finally, bind,
    Db.query_all, bind, Db.round_trip.
  now rewrite Hdb.
Qed.

Lemma tool_list_ok (w : World) :
  db_fault w = None ->
  McpServer.list_research_tasks w
  = (inr (McpServer.text_result
            match research_tasks w with
            | [] => "No research tasks found."
            | _ :: _ =>
                "Research Tasks:" ++ Py.nl
                  ++ Py.join Py.nl (map McpServer.task_line (research_tasks w))
            end), w).
Proof.
  intros Hdb.
  unfold McpServer.list_research_tasks, try_finally, bind,
    Db.query_all, bind, Db.round_trip.
  rewrite Hdb. now destruct (research_tasks w).
Qed.

Lemma tool_list_fault (w : World) (msg : string) :
  db_fault w = Some msg ->
  McpServer.list_research_tasks w = (inl (OperationalError msg), w).
Proof.
  intros Hdb.
  unfold McpServer.list_research_tasks, try_finally, bind,
    Db.query_all, bind, Db.round_trip.
  now rewrite Hdb.
Qed.

Lemma http_analyze_runs (w : World) (content : string) :
  exists text : option string,
    OllamaClient.generate OllamaClient.new (analysis_prompt content) "llama3.2"
      OllamaClient.default_temperature OllamaClient.default_max_tokens w
    = (inr text,
       set_posted (posted w ++ [generate_request OllamaClient.new
                                  (analysis_prompt content) "llama3.2"
                                  OllamaClient.default_temperature
                                  OllamaClient.default_max_tokens]) w)
    /\ Main.analyze_content {| Main.ContentAnalysisRequest.content := content |} w
       = (inr {| Main.ContentAnalysisResponse.analysis := Py.or_str text no_result |},
          set_posted (posted w ++ [generate_request OllamaClient.new
                                     (analysis_prompt content) "llama3.2"
                                     OllamaClient.default_temperature
                                     OllamaClient.default_max_tokens]) w).
Proof.
  destruct (generate_returns OllamaClient.new (analysis_prompt content) "llama3.2"
              OllamaClient.default_temperature OllamaClient.default_max_tokens w)
    as [text E].
  exists text. split; [exact E|].
  unfold Main.analyze_content, bind, Main.ollama_client. simpl.
  now rewrite E.
Qed.

Lemma tool_analyze_runs (w : World) (arguments : McpServer.Args.t) (content : string) :
  McpServer.Args.content arguments = Some content ->
  content <> EmptyString ->
  exists text : option string,
    OllamaClient.generate OllamaClient.new (analysis_prompt content) "llama3.2"
      OllamaClient.default_temperature OllamaClient.default_max_tokens w
    = (inr text,
       set_posted (posted w ++ [generate_request OllamaClient.new
                                  (analysis_prompt content) "llama3.2"
                                  OllamaClient.default_temperature
                                  OllamaClient.default_max_tokens]) w)
    /\ McpServer.analyze_content arguments w
       = (inr (McpServer.text_result (Py.or_str text no_result)),
          set_posted (posted w ++ [generate_request OllamaClient.new
                                     (analysis_prompt content) "llama3.2"
                                     OllamaClient.default_temperature
                                     OllamaClient.default_max_tokens]) w).
Proof.
  intros Hc Hne.
  destruct (generate_returns OllamaClient.new (analysis_prompt content) "llama3.2"
              OllamaClient.default_temperature OllamaClient.default_max_tokens w)
    as [text E].
  exists text. split; [exact E|].
  unfold McpServer.analyze_content. rewrite Hc, (truthy_str_nonempty _ Hne).
  unfold bind, McpServer.ollama_client.
  now rewrite E.
Qed.

Lemma tool_analyze_rejects (w : World) (arguments : McpServer.Args.t) :
  McpServer.Args.content arguments = None
  \/ McpServer.Args.content arguments = Some EmptyString ->
  McpServer.analyze_content arguments w
  = (inr (McpServer.text_result "Error: content is required"), w).
Proof.
  intros [H|H]; unfold McpServer.analyze_content; now rewrite H.
Qed.

Lemma write_back_job_ok (w : World) (task_id : Z) (query : string)
      (task : ResearchTaskORM.t) :
  db_fault w = None ->
  Db.first task_id (research_tasks w) = Some task ->
  exists text : option string,
    OllamaClient.generate OllamaClient.new (strategy_prompt query) "codellama"
      OllamaClient.default_temperature OllamaClient.default_max_tokens w
    = (inr text, set_posted (posted w ++ [strategy_request query]) w)
    /\ Main.llm_generate_scraping_strategy task_id query w
       = (inr tt,
          set_research_tasks (Db.write_back (completed text task) (research_tasks w))
            (set_posted (posted w ++ [strategy_request query]) w)).
Proof.
  intros Hdb Hfirst.
  destruct (generate_returns OllamaClient.new (strategy_prompt query) "codellama"
              OllamaClient.default_temperature OllamaClient.default_max_tokens w)
    as [text Hgen].
  exists text. split; [exact Hgen|].
  unfold Main.llm_generate_scraping_strategy, try_finally, bind, Db.query_first, bind.
  rewrite (round_trip_ok w Hdb), Hfirst.
  unfold Main.ollama_client. rewrite Hgen.
  unfold Db.commit, bind, Db.round_trip. simpl. rewrite Hdb. reflexivity.
Qed.

Lemma write_back_job_missing (w : World) (task_id : Z) (query : string) :
  db_fault w = None ->
  Db.first task_id (research_tasks w) = None ->
  Main.llm_generate_scraping_strategy task_id query w = (inr tt, w).
Proof.
  intros Hdb Hfirst.
  unfold Main.llm_generate_scraping_strategy, try_finally, bind, Db.query_first, bind.
  now rewrite (round_trip_ok w Hdb), Hfirst.
Qed.

Lemma write_back_job_fault (w : World) (task_id : Z) (query msg : string) :
  db_fault w = Some msg ->
  Main.llm_generate_scraping_strategy task_id query w = (inl (OperationalError msg), w).
Proof.
  intros Hdb.
  unfold Main.llm_generate_scraping_strategy, try_finally, bind, Db.query_first, bind.
  now rewrite (round_trip_fault w msg Hdb).
Qed.

(** C1: when the write-back runs on the id of a task in the store, with the
    database in working order, it runs to completion; afterwards the task's
    status is ["completed"] and its result is not null: it is the text the
    LLM client returned when there is one, and the fallback
    ["LLM did not return a result."] when the client returned [None] or the
    empty string.  The task's id, query and timestamp and every other task
    stay as they were.  Both adapters' write-backs do so. *)
Theorem write_back_completes_task
        (w : World) (task_id : Z) (query : string) (task : ResearchTaskORM.t) :
  db_fault w = None ->
  Db.first task_id (research_tasks w) = Some task ->
  exists (text : option string) (w' : World) (done : ResearchTaskORM.t),
    fst (OllamaClient.generate OllamaClient.new (strategy_prompt query) "codellama"
           OllamaClient.default_temperature OllamaClient.default_max_tokens w)
    = inr text
    /\ Main.llm_generate_scraping_strategy task_id query w = (inr tt, w')
    /\ McpServer.generate_llm_response task_id query w = (inr tt, w')
    /\ Db.first task_id (research_tasks w') = Some done
    /\ ResearchTaskORM.status done = "completed"
    /\ ResearchTaskORM.result done <> None
    /\ (forall s : string,
          text = Some s -> s <> EmptyString -> ResearchTaskORM.result done = Some s)
    /\ (text = None \/ text = Some EmptyString ->
        ResearchTaskORM.result done = Some "LLM did not return a result.")
    /\ ResearchTaskORM.id done = task_id
    /\ ResearchTaskORM.query done = ResearchTaskORM.query task
    /\ ResearchTaskORM.timestamp done = ResearchTaskORM.timestamp task
    /\ (forall k : Z,
          k <> task_id ->
          Db.first k (research_tasks w') = Db.first k (research_tasks w)).
Proof.
  intros Hdb Hfirst.
  destruct (write_back_job_ok w task_id query task Hdb Hfirst) as (text & Hgen & Hrun).
  assert (Hid : ResearchTaskORM.id task = task_id) by (eapply first_id; eauto).
  exists text. eexists. exists (completed text task).
  rewrite Hgen. split; [reflexivity|].
  split; [exact Hrun|].
  split; [rewrite write_back_jobs_agree; exact Hrun|].
  split; [simpl; eapply first_write_back; eauto|].
  split; [reflexivity|].
  split; [discriminate|].
  split.
  { intros s -> Hs. simpl. destruct s; [contradiction|reflexivity]. }
  split.
  { intros [->| ->]; reflexivity. }
  split; [exact Hid|].
  split; [reflexivity|].
  split; [reflexivity|].
  intros k Hk. simpl. apply first_write_back_other. simpl. congruence.
Qed.

(** A pending task, an endpoint that answers: the write-back stores the
    answer. *)
Lemma write_back_completes_task_witness :
  db_fault (laptop_world (endpoint_saying "Use a headless browser.")) = None
  /\ Db.first 1 (research_tasks (laptop_world (endpoint_saying "Use a headless browser.")))
     = Some laptop_task
  /\ exists (text : option string) (w' : World) (done : ResearchTaskORM.t),
       fst (OllamaClient.generate OllamaClient.new (strategy_prompt "best laptop 2024")
              "codellama"
              OllamaClient.default_temperature OllamaClient.default_max_tokens
              (laptop_world (endpoint_saying "Use a headless browser.")))
       = inr text
       /\ Main.llm_generate_scraping_strategy 1 "best laptop 2024"
            (laptop_world (endpoint_saying "Use a headless browser."))
          = (inr tt, w')
       /\ Db.first 1 (research_tasks w') = Some done
       /\ ResearchTaskORM.status done = "completed"
       /\ ResearchTaskORM.result done <> None.
Proof.
  split; [reflexivity|]. split; [reflexivity|].
  destruct (write_back_completes_task
              (laptop_world (endpoint_saying "Use a headless browser."))
              1 "best laptop 2024" laptop_task eq_refl eq_refl)
    as (text & w' & done & H1 & H2 & _ & H4 & H5 & H6 & _).
  exists text, w', done. repeat split; assumption.
Defined.

(** The same write-back, run: with an answer, and with the endpoint down. *)
Example write_back_stores_answer :
  research_tasks
    (snd (Main.llm_generate_scraping_strategy 1 "best laptop 2024"
            (laptop_world (endpoint_saying "Use a headless browser."))))
  = [ {| ResearchTaskORM.id := 1;
         ResearchTaskORM.query := "best laptop 2024";
         ResearchTaskORM.status := "completed";
         ResearchTaskORM.result := Some "Use a headless browser.";
         ResearchTaskORM.timestamp := 1700000000 |} ].
Proof. reflexivity. Qed.

Example write_back_stores_fallback :
  research_tasks
    (snd (McpServer.generate_llm_response 1 "best laptop 2024"
            (laptop_world endpoint_down)))
  = [ {| ResearchTaskORM.id := 1;
         ResearchTaskORM.query := "best laptop 2024";
         ResearchTaskORM.status := "completed";
         ResearchTaskORM.result := Some "LLM did not return a result.";
         ResearchTaskORM.timestamp := 1700000000 |} ].
Proof. reflexivity. Qed.


(** ** The dispatcher and its body *)

Lemma handle_call_tool_try (name : string) (arguments : McpServer.Args.t) :
  McpServer.handle_call_tool name arguments
  = try_except (dispatch name arguments)
      (fun e => ret (McpServer.text_result ("Error: " ++ str e))).
Proof. reflexivity. Qed.

Lemma handle_call_tool_world (name : string) (arguments : McpServer.Args.t) (w : World) :
  snd (McpServer.handle_call_tool name arguments w) = snd (dispatch name arguments w).
Proof.
  rewrite handle_call_tool_try. unfold try_except.
  now destruct (dispatch name arguments w) as [[e|r] w'].
Qed.

Lemma handle_call_tool_returns (name : string) (arguments : McpServer.Args.t)
      (w w' : World) (r : McpServer.CallToolResult.t) :
  dispatch name arguments w = (inr r, w') ->
  McpServer.handle_call_tool name arguments w = (inr r, w').
Proof. intros H. rewrite handle_call_tool_try. unfold try_except. now rewrite H. Qed.

Lemma handle_call_tool_catches (name : string) (arguments : McpServer.Args.t)
      (w w' : World) (e : Exception) :
  dispatch name arguments w = (inl e, w') ->
  McpServer.handle_call_tool name arguments w
  = (inr (McpServer.text_result ("Error: " ++ str e)), w').
Proof. intros H. rewrite handle_call_tool_try. unfold try_except. now rewrite H. Qed.

Lemma dispatch_create (arguments : McpServer.Args.t) :
  dispatch "create_research_task" arguments = McpServer.create_research_task arguments.
Proof. reflexivity. Qed.

Lemma dispatch_list (arguments : McpServer.Args.t) :
  dispatch "list_research_tasks" arguments = McpServer.list_research_tasks.
Proof. reflexivity. Qed.

Lemma dispatch_update (arguments : McpServer.Args.t) :
  dispatch "update_research_task" arguments = McpServer.update_research_task arguments.
Proof. reflexivity. Qed.

Lemma dispatch_analyze (arguments : McpServer.Args.t) :
  dispatch "analyze_content" arguments = McpServer.analyze_content arguments.
Proof. reflexivity. Qed.

(** ** Histories: rows are never removed, keys stay positive *)

Lemma grows_same (w w' : World) :
  research_tasks w' = research_tasks w -> grows w w'.
Proof. intros H. left. unfold task_ids. now rewrite H. Qed.

Lemma grows_written (w w' : World) (task : ResearchTaskORM.t) :
  research_tasks w' = Db.write_back task (research_tasks w) -> grows w w'.
Proof. intros H. left. unfold task_ids. rewrite H. apply write_back_ids. Qed.

Lemma grows_inserted (w w' : World) (now : Z) (query : string) :
  research_tasks w'
  = (research_tasks w ++ [pending_task (research_tasks w) now query])%list ->
  grows w w'.
Proof. intros H. right. unfold task_ids. rewrite H, map_app. reflexivity. Qed.

Lemma write_back_job_grows (w : World) (task_id : Z) (query : string) :
  grows w (snd (Main.llm_generate_scraping_strategy task_id query w)).
Proof.
  destruct (db_fault w) as [msg|] eqn:Hdb.
  - rewrite (write_back_job_fault w task_id query msg Hdb). now apply grows_same.
  - destruct (Db.first task_id (research_tasks w)) as [task|] eqn:Hfirst.
    + destruct (write_back_job_ok w task_id query task Hdb Hfirst) as (text & _ & E).
      rewrite E. now eapply grows_written.
    + rewrite (write_back_job_missing w task_id query Hdb Hfirst). now apply grows_same.
Qed.

Lemma run_next_grows (w : World) :
  grows w (snd (Scheduler.run_next Main.llm_generate_scraping_strategy w)).
Proof.
  unfold Scheduler.run_next.
  destruct (background w) as [|[task_id query] rest].
  - now apply grows_same.
  - exact (write_back_job_grows (set_background rest w) task_id query).
Qed.

Lemma http_create_grows (w : World) (query : option string) :
  grows w (snd (Main.post_research query w)).
Proof.
  destruct query as [query|]; simpl; [|now apply grows_same].
  destruct (db_fault w) as [msg|] eqn:Hdb.
  - rewrite (http_create_fault w query msg Hdb). now apply grows_same.
  - rewrite (http_create_ok w query Hdb). now eapply grows_inserted.
Qed.

Lemma http_update_grows (w : World) (update : Main.ResearchTaskUpdate.t) (task_id : Z) :
  grows w (snd (Main.update_research_task update task_id w)).
Proof.
  destruct (db_fault w) as [msg|] eqn:Hdb.
  - rewrite (http_update_fault w update task_id msg Hdb). now apply grows_same.
  - destruct (Db.first task_id (research_tasks w)) as [task|] eqn:Hfirst.
    + rewrite (http_update_ok w update task_id task Hdb Hfirst). now eapply grows_written.
    + rewrite (http_update_missing w update task_id Hdb Hfirst). now apply grows_same.
Qed.

Lemma http_analyze_grows (w : World) (content : option string) :
  grows w (snd (Main.post_analyze content w)).
Proof.
  destruct content as [content|]; simpl; [|now apply grows_same].
  destruct (http_analyze_runs w content) as (text & _ & E).
  rewrite E. now apply grows_same.
Qed.

Lemma http_list_grows (w : World) :
  grows w (snd (Main.get_research_tasks w)).
Proof.
  destruct (db_fault w) as [msg|] eqn:Hdb.
  - rewrite (http_list_fault w msg Hdb). now apply grows_same.
  - rewrite (http_list_ok w Hdb). now apply grows_same.
Qed.

Lemma tool_create_grows (w : World) (arguments : McpServer.Args.t) :
  grows w (snd (McpServer.create_research_task arguments w)).
Proof.
  destruct (McpServer.Args.query arguments) as [[|c q]|] eqn:Hq.
  - rewrite tool_create_rejects by now right. now apply grows_same.
  - assert (Hne : String c q <> EmptyString) by discriminate.
    destruct (db_fault w) as [msg|] eqn:Hdb.
    + rewrite (tool_create_fault w arguments _ msg Hdb Hq Hne). now apply grows_same.
    + rewrite (tool_create_ok w arguments _ Hdb Hq Hne). now eapply grows_inserted.
  - rewrite tool_create_rejects by now left. now apply grows_same.
Qed.

Lemma tool_update_grows (w : World) (arguments : McpServer.Args.t) :
  grows w (snd (McpServer.update_research_task arguments w)).
Proof.
  destruct (McpServer.Args.task_id arguments) as [task_id|] eqn:Hid.
  - destruct (Z.eq_dec task_id 0) as [->|Hnz].
    + rewrite tool_update_required by now right. now apply grows_same.
    + destruct (db_fault w) as [msg|] eqn:Hdb.
      * rewrite (tool_update_fault w arguments task_id msg Hdb Hid Hnz).
        now apply grows_same.
      * destruct (Db.first task_id (research_tasks w)) as [task|] eqn:Hfirst.
        -- rewrite (tool_update_ok w arguments task_id task Hdb Hid Hnz Hfirst).
           now eapply grows_written.
        -- rewrite (tool_update_missing w arguments task_id Hdb Hid Hnz Hfirst).
           now apply grows_same.
  - rewrite tool_update_required by now left. now apply grows_same.
Qed.

Lemma tool_list_grows (w : World) :
  grows w (snd (McpServer.list_research_tasks w)).
Proof.
  destruct (db_fault w) as [msg|] eqn:Hdb.
  - rewrite (tool_list_fault w msg Hdb). now apply grows_same.
  - rewrite (tool_list_ok w Hdb). now apply grows_same.
Qed.

Lemma tool_analyze_grows (w : World) (arguments : McpServer.Args.t) :
  grows w (snd (McpServer.analyze_content arguments w)).
Proof.
  destruct (McpServer.Args.content arguments) as [[|c s]|] eqn:Hc.
  - rewrite tool_analyze_rejects by now right. now apply grows_same.
  - assert (Hne : String c s <> EmptyString) by discriminate.
    destruct (tool_analyze_runs w arguments _ Hc Hne) as (text & _ & E).
    rewrite E. now apply grows_same.
  - rewrite tool_analyze_rejects by now left. now apply grows_same.
Qed.

Lemma dispatch_grows (name : string) (arguments : McpServer.Args.t) (w : World) :
  grows w (snd (dispatch name arguments w)).
Proof.
  unfold dispatch.
  destruct (String.eqb name "create_research_task"); [apply tool_create_grows|].
  destruct (String.eqb name "list_research_tasks"); [apply tool_list_grows|].
  destruct (String.eqb name "update_research_task"); [apply tool_update_grows|].
  destruct (String.eqb name "analyze_content"); [apply tool_analyze_grows|].
  now apply grows_same.
Qed.

Lemma perform_grows (c : Call) (w : World) : grows w (perform c w).
Proof.
  destruct c; simpl.
  - apply http_list_grows.
  - apply http_create_grows.
  - apply http_update_grows.
  - apply http_analyze_grows.
  - rewrite handle_call_tool_world. apply dispatch_grows.
  - apply run_next_grows.
  - apply run_next_grows.
  - now apply grows_same.
Qed.


Lemma grows_positive (w w' : World) :
  grows w w' -> keys_positive w -> keys_positive w'.
Proof.
  unfold keys_positive. intros [E|E] H; rewrite E; [assumption|].
  apply Forall_app. split; [assumption|].
  constructor; [|constructor].
  now apply next_id_positive.
Qed.


Lemma history_keys_positive (calls : list Call) (w : World) :
  keys_positive w -> keys_positive (history calls w).
Proof.
  unfold history. revert w.
  induction calls as [|c calls IH]; simpl; intros w H; [assumption|].
  apply IH. eapply grows_positive; [apply perform_grows|assumption].
Qed.

Lemma fresh_world_keys_positive (ep : nat -> HttpOutcome) :
  keys_positive (fresh_world ep).
Proof. constructor. Qed.

Lemma existing_key_nonzero (w : World) (task_id : Z) (task : ResearchTaskORM.t) :
  keys_positive w ->
  Db.first task_id (research_tasks w) = Some task ->
  task_id <> 0.
Proof.
  unfold keys_positive, task_ids. intros Hpos Hfirst.
  rewrite Forall_forall in Hpos.
  assert (1 <= task_id).
  { apply Hpos. rewrite <- (first_id _ _ _ Hfirst).
    apply in_map. eapply first_In; eauto. }
  lia.
Qed.

(** The specification's example, end to end: a create, then the scheduler
    runs the write-back it queued; the task is completed with a result, here
    the fallback since the endpoint is down. *)
Example create_then_write_back :
  let w1 := snd (Main.post_research (Some "best laptop 2024")
                   (fresh_world endpoint_down)) in
  let w2 := snd (Scheduler.run_next Main.llm_generate_scraping_strategy w1) in
  background w1 = [(1, "best laptop 2024")]
  /\ background w2 = []
  /\ fst (Main.get_research_tasks w2)
     = inr [ {| ResearchTask.id := 1;
                ResearchTask.query := "best laptop 2024";
                ResearchTask.status := "completed";
                ResearchTask.result := Some "LLM did not return a result.";
                ResearchTask.timestamp := 1700000000 |} ].
Proof. repeat split. Qed.

(** ** Creating a task *)



(** The specification's example: the first create returns id 1, pending,
    without a result; a second one returns id 2. *)
Example create_first_and_second :
  fst (Main.post_research (Some "best laptop 2024") (fresh_world endpoint_down))
  = inr {| ResearchTask.id := 1;
           ResearchTask.query := "best laptop 2024";
           ResearchTask.status := "pending";
           ResearchTask.result := None;
           ResearchTask.timestamp := 1700000000 |}
  /\ fst (McpServer.handle_call_tool "create_research_task"
            {| McpServer.Args.query := Some "cheap flights";
               McpServer.Args.task_id := None;
               McpServer.Args.status := None;
               McpServer.Args.result := None;
               McpServer.Args.content := None |}
            (snd (Main.post_research (Some "best laptop 2024")
                    (fresh_world endpoint_down))))
     = inr (McpServer.text_result "Research task created with ID 2. Status: pending").
Proof. split; reflexivity. Qed.

(** C3, as the claim words it, fails on the HTTP adapter: a create whose
    query is the empty string is not rejected; a pending task with the empty
    query is inserted and returned. *)
Lemma http_create_accepts_empty_query :
  Main.post_research (Some EmptyString) (fresh_world endpoint_down)
  = (inr {| ResearchTask.id := 1;
            ResearchTask.query := EmptyString;
            ResearchTask.status := "pending";
            ResearchTask.result := None;
            ResearchTask.timestamp := 1700000000 |},
     {| research_tasks := [ {| ResearchTaskORM.id := 1;
                               ResearchTaskORM.query := EmptyString;
                               ResearchTaskORM.status := "pending";
                               ResearchTaskORM.result := None;
                               ResearchTaskORM.timestamp := 1700000000 |} ];
        db_fault := None;
        utcnow := 1700000000;
        background := [(1, EmptyString)];
        endpoint := endpoint_down;
        posted := [] |}).
Proof. reflexivity. Qed.

(** C3, amended: on the tool-call adapter a create whose query is the empty
    string (or is missing) is answered with the text
    ["Error: query is required"] and the world, the store in it, is left as it
    was.  The HTTP adapter rejects a create only when the body has no query,
    with a validation error and the world as it was; a query that is the empty
    string it accepts, inserting a pending task. *)
Theorem create_with_empty_query (w : World) :
  (forall arguments : McpServer.Args.t,
      McpServer.Args.query arguments = Some EmptyString
      \/ McpServer.Args.query arguments = None ->
      McpServer.create_research_task arguments w
      = (inr (McpServer.text_result "Error: query is required"), w)
      /\ McpServer.handle_call_tool "create_research_task" arguments w
         = (inr (McpServer.text_result "Error: query is required"), w))
  /\ Main.post_research None w = (inl (RequestValidationError "query"), w)
  /\ (db_fault w = None ->
      Main.post_research (Some EmptyString) w
      = (inr (Main.ResearchTask_of
                (pending_task (research_tasks w) (utcnow w) EmptyString)),
         set_background
           (background w ++ [(Db.next_id (research_tasks w), EmptyString)])
           (set_research_tasks
              (research_tasks w
                 ++ [pending_task (research_tasks w) (utcnow w) EmptyString]) w))).
Proof.
  split.
  { intros arguments H.
    assert (E : McpServer.create_research_task arguments w
                = (inr (McpServer.text_result "Error: query is required"), w))
      by (apply tool_create_rejects; tauto).
    split; [exact E|].
    apply handle_call_tool_returns. now rewrite dispatch_create. }
  split; [reflexivity|].
  intros Hdb. exact (http_create_ok w EmptyString Hdb).
Qed.

(** ** Updating a task *)

(** C2, as the claim words it, fails on the tool-call adapter: an update
    that provides only the status, and provides the empty string, does not
    write it.  Task 1 is completed; after the update it still is, and the
    world is as it was. *)
Lemma tool_update_drops_empty_status :
  Db.first 1 (research_tasks done_world) = Some done_task
  /\ McpServer.update_research_task
       {| McpServer.Args.query := None;
          McpServer.Args.task_id := Some 1;
          McpServer.Args.status := Some EmptyString;
          McpServer.Args.result := None;
          McpServer.Args.content := None |}
       done_world
     = (inr (McpServer.text_result "Task 1 updated successfully. Status: completed"),
        done_world).
Proof. split; reflexivity. Qed.

(** C2, amended: an update of a task in the store leaves every field it
    does not write at its previous value, and the other tasks as they were.
    The HTTP adapter writes exactly the fields provided (those that are not
    null).  The tool-call adapter writes exactly the fields provided with a
    non-empty string; a field provided as the empty string is left at its
    previous value, like one not provided.  So, in both, an update with only a
    status keeps the result there was, and one with only a result keeps the
    status. *)
Theorem update_writes_provided_fields_only
        (w : World) (task_id : Z) (task : ResearchTaskORM.t) :
  db_fault w = None ->
  keys_positive w ->
  Db.first task_id (research_tasks w) = Some task ->
  (forall update : Main.ResearchTaskUpdate.t,
      exists (w' : World) (task' : ResearchTaskORM.t),
        Main.update_research_task update task_id w
        = (inr (Main.ResearchTask_of task'), w')
        /\ Db.first task_id (research_tasks w') = Some task'
        /\ ResearchTaskORM.status task'
           = match Main.ResearchTaskUpdate.status update with
             | Some s => s
             | None => ResearchTaskORM.status task
             end
        /\ ResearchTaskORM.result task'
           = match Main.ResearchTaskUpdate.result update with
             | Some r => Some r
             | None => ResearchTaskORM.result task
             end
        /\ ResearchTaskORM.id task' = ResearchTaskORM.id task
        /\ ResearchTaskORM.query task' = ResearchTaskORM.query task
        /\ ResearchTaskORM.timestamp task' = ResearchTaskORM.timestamp task
        /\ (forall k : Z,
              k <> task_id ->
              Db.first k (research_tasks w') = Db.first k (research_tasks w)))
  /\ (forall arguments : McpServer.Args.t,
         McpServer.Args.task_id arguments = Some task_id ->
         exists (w' : World) (task' : ResearchTaskORM.t),
           McpServer.update_research_task arguments w
           = (inr (McpServer.text_result
                     ("Task " ++ Py.str_int task_id
                        ++ " updated successfully. Status: "
                        ++ ResearchTaskORM.status task')), w')
           /\ Db.first task_id (research_tasks w') = Some task'
           /\ ResearchTaskORM.status task'
              = match McpServer.Args.status arguments with
                | Some (String c s) => String c s
                | Some EmptyString => ResearchTaskORM.status task
                | None => ResearchTaskORM.status task
                end
           /\ ResearchTaskORM.result task'
              = match McpServer.Args.result arguments with
                | Some (String c r) => Some (String c r)
                | Some EmptyString => ResearchTaskORM.result task
                | None => ResearchTaskORM.result task
                end
           /\ ResearchTaskORM.id task' = ResearchTaskORM.id task
           /\ ResearchTaskORM.query task' = ResearchTaskORM.query task
           /\ ResearchTaskORM.timestamp task' = ResearchTaskORM.timestamp task
           /\ (forall k : Z,
                 k <> task_id ->
                 Db.first k (research_tasks w') = Db.first k (research_tasks w))).
Proof.
  intros Hdb Hpos Hfirst.
  assert (Hid : ResearchTaskORM.id task = task_id) by (eapply first_id; eauto).
  assert (Hnz : task_id <> 0) by (eapply existing_key_nonzero; eauto).
  split.
  - intros update.
    set (task' := patched (Main.ResearchTaskUpdate.status update)
                    (Main.ResearchTaskUpdate.result update) task).
    exists (set_research_tasks (Db.write_back task' (research_tasks w)) w), task'.
    split; [exact (http_update_ok w update task_id task Hdb Hfirst)|].
    split.
    { simpl. eapply first_write_back; eauto. unfold task'. now rewrite patched_id. }
    split; [apply patched_status|].
    split; [apply patched_result|].
    split; [apply patched_id|].
    split; [apply patched_query|].
    split; [apply patched_timestamp|].
    intros k Hk. simpl. apply first_write_back_other.
    unfold task'. rewrite patched_id. congruence.
  - intros arguments Harg.
    set (task' := patched (Py.truthy Py.bool_str (McpServer.Args.status arguments))
                    (Py.truthy Py.bool_str (McpServer.Args.result arguments)) task).
    exists (set_research_tasks (Db.write_back task' (research_tasks w)) w), task'.
    split; [exact (tool_update_ok w arguments task_id task Hdb Harg Hnz Hfirst)|].
    split.
    { simpl. eapply first_write_back; eauto. unfold task'. now rewrite patched_id. }
    split.
    { unfold task'. rewrite patched_status.
      now destruct (McpServer.Args.status arguments) as [[|c s]|]. }
    split.
    { unfold task'. rewrite patched_result.
      now destruct (McpServer.Args.result arguments) as [[|c r]|]. }
    split; [apply patched_id|].
    split; [apply patched_query|].
    split; [apply patched_timestamp|].
    intros k Hk. simpl. apply first_write_back_other.
    unfold task'. rewrite patched_id. congruence.
Qed.

(** The specification's example: task 1 has result ["X"]; an update with
    only the status ["archived"] leaves the result. *)
Lemma update_writes_provided_fields_only_witness :
  db_fault done_world = None
  /\ keys_positive done_world
  /\ Db.first 1 (research_tasks done_world) = Some done_task
  /\ exists (w' : World) (task' : ResearchTaskORM.t),
       Main.update_research_task
         {| Main.ResearchTaskUpdate.status := Some "archived";
            Main.ResearchTaskUpdate.result := None |} 1 done_world
       = (inr (Main.ResearchTask_of task'), w')
       /\ Db.first 1 (research_tasks w') = Some task'
       /\ ResearchTaskORM.status task' = "archived"
       /\ ResearchTaskORM.result task' = Some "X".
Proof.
  assert (Hpos : keys_positive done_world) by (repeat constructor; discriminate).
  split; [reflexivity|]. split; [exact Hpos|]. split; [reflexivity|].
  destruct (update_writes_provided_fields_only done_world 1 done_task
              eq_refl Hpos eq_refl) as [Hhttp _].
  destruct (Hhttp {| Main.ResearchTaskUpdate.status := Some "archived";
                     Main.ResearchTaskUpdate.result := None |})
    as (w' & task' & H1 & H2 & H3 & H4 & _).
  exists w', task'. repeat split; assumption.
Defined.

Example update_status_keeps_result :
  research_tasks
    (snd (McpServer.handle_call_tool "update_research_task"
            {| McpServer.Args.query := None;
               McpServer.Args.task_id := Some 1;
               McpServer.Args.status := Some "archived";
               McpServer.Args.result := None;
               McpServer.Args.content := None |}
            done_world))
  = [ {| ResearchTaskORM.id := 1;
         ResearchTaskORM.query := "best laptop 2024";
         ResearchTaskORM.status := "archived";
         ResearchTaskORM.result := Some "X";
         ResearchTaskORM.timestamp := 1700000000 |} ].
Proof. reflexivity. Qed.

(** C10: on the tool-call adapter, an update of a task in the store that
    gives the empty string as status (or as result) does what the same update
    without that field does, and leaves the field at its previous value; the
    HTTP adapter's update sets the field to the empty string.  The tool-call
    update tells a field apart by its truth value, not by its presence. *)
Theorem tool_update_treats_empty_as_absent
        (w : World) (task_id : Z) (task : ResearchTaskORM.t)
        (arguments : McpServer.Args.t) :
  db_fault w = None ->
  keys_positive w ->
  Db.first task_id (research_tasks w) = Some task ->
  McpServer.Args.task_id arguments = Some task_id ->
  (McpServer.Args.status arguments = Some EmptyString ->
   McpServer.update_research_task arguments w
   = McpServer.update_research_task
       {| McpServer.Args.query := McpServer.Args.query arguments;
          McpServer.Args.task_id := McpServer.Args.task_id arguments;
          McpServer.Args.status := None;
          McpServer.Args.result := McpServer.Args.result arguments;
          McpServer.Args.content := McpServer.Args.content arguments |} w
   /\ (exists task' : ResearchTaskORM.t,
          Db.first task_id
            (research_tasks (snd (McpServer.update_research_task arguments w)))
          = Some task'
          /\ ResearchTaskORM.status task' = ResearchTaskORM.status task)
   /\ (exists task' : ResearchTaskORM.t,
          Db.first task_id
            (research_tasks
               (snd (Main.update_research_task
                       {| Main.ResearchTaskUpdate.status := Some EmptyString;
                          Main.ResearchTaskUpdate.result := McpServer.Args.result arguments |}
                       task_id w)))
          = Some task'
          /\ ResearchTaskORM.status task' = EmptyString))
  /\ (McpServer.Args.result arguments = Some EmptyString ->
      McpServer.update_research_task arguments w
      = McpServer.update_research_task
          {| McpServer.Args.query := McpServer.Args.query arguments;
             McpServer.Args.task_id := McpServer.Args.task_id arguments;
             McpServer.Args.status := McpServer.Args.status arguments;
             McpServer.Args.result := None;
             McpServer.Args.content := McpServer.Args.content arguments |} w
      /\ (exists task' : ResearchTaskORM.t,
             Db.first task_id
               (research_tasks (snd (McpServer.update_research_task arguments w)))
             = Some task'
             /\ ResearchTaskORM.result task' = ResearchTaskORM.result task)
      /\ (exists task' : ResearchTaskORM.t,
             Db.first task_id
               (research_tasks
                  (snd (Main.update_research_task
                          {| Main.ResearchTaskUpdate.status := McpServer.Args.status arguments;
                             Main.ResearchTaskUpdate.result := Some EmptyString |}
                          task_id w)))
             = Some task'
             /\ ResearchTaskORM.result task' = Some EmptyString)).
Proof.
  intros Hdb Hpos Hfirst Harg.
  assert (Hnz : task_id <> 0) by (eapply existing_key_nonzero; eauto).
  split; intros Hempty.
  - split.
    { unfold McpServer.update_research_task. simpl. now rewrite Hempty. }
    split.
    + rewrite (tool_update_ok w arguments task_id task Hdb Harg Hnz Hfirst).
      cbn [snd set_research_tasks research_tasks].
      eexists. split; [now apply first_after_patch|].
      rewrite patched_status, Hempty. reflexivity.
    + rewrite (http_update_ok w _ task_id task Hdb Hfirst).
      cbn [snd set_research_tasks research_tasks].
      eexists. split; [now apply first_after_patch|].
      now rewrite patched_status.
  - split.
    { unfold McpServer.update_research_task. simpl. now rewrite Hempty. }
    split.
    + rewrite (tool_update_ok w arguments task_id task Hdb Harg Hnz Hfirst).
      cbn [snd set_research_tasks research_tasks].
      eexists. split; [now apply first_after_patch|].
      rewrite patched_result, Hempty. reflexivity.
    + rewrite (http_update_ok w _ task_id task Hdb Hfirst).
      cbn [snd set_research_tasks research_tasks].
      eexists. split; [now apply first_after_patch|].
      now rewrite patched_result.
Qed.

(** Task 1 is completed with result ["X"]; the tool-call update with the
    empty status leaves it completed, the HTTP update empties the status. *)
Lemma tool_update_treats_empty_as_absent_witness :
  db_fault done_world = None
  /\ keys_positive done_world
  /\ Db.first 1 (research_tasks done_world) = Some done_task
  /\ (exists task' : ResearchTaskORM.t,
         Db.first 1
           (research_tasks
              (snd (McpServer.update_research_task
                      {| McpServer.Args.query := None;
                         McpServer.Args.task_id := Some 1;
                         McpServer.Args.status := Some EmptyString;
                         McpServer.Args.result := None;
                         McpServer.Args.content := None |}
                      done_world)))
         = Some task'
         /\ ResearchTaskORM.status task' = ResearchTaskORM.status done_task)
  /\ (exists task' : ResearchTaskORM.t,
         Db.first 1
           (research_tasks
              (snd (Main.update_research_task
                      {| Main.ResearchTaskUpdate.status := Some EmptyString;
                         Main.ResearchTaskUpdate.result := None |}
                      1 done_world)))
         = Some task'
         /\ ResearchTaskORM.status task' = EmptyString).
Proof.
  assert (Hpos : keys_positive done_world) by (repeat constructor; discriminate).
  split; [reflexivity|]. split; [exact Hpos|]. split; [reflexivity|].
  destruct (tool_update_treats_empty_as_absent done_world 1 done_task
              {| McpServer.Args.query := None;
                 McpServer.Args.task_id := Some 1;
                 McpServer.Args.status := Some EmptyString;
                 McpServer.Args.result := None;
                 McpServer.Args.content := None |}
              eq_refl Hpos eq_refl eq_refl) as [Hstatus _].
  destruct (Hstatus eq_refl) as (_ & Htool & Hhttp).
  split; assumption.
Defined.




(** ** The dispatcher of tool calls *)

Lemma tool_create_answers_or_raises (arguments : McpServer.Args.t) (w : World) :
  answers_or_raises (McpServer.create_research_task arguments) w.
Proof.
  unfold answers_or_raises.
  destruct (McpServer.Args.query arguments) as [[|c q]|] eqn:Hq.
  - left. rewrite tool_create_rejects by now right. eauto.
  - assert (Hne : String c q <> EmptyString) by discriminate.
    destruct (db_fault w) as [msg|] eqn:Hdb.
    + right. rewrite (tool_create_fault w arguments _ msg Hdb Hq Hne). eauto.
    + left. rewrite (tool_create_ok w arguments _ Hdb Hq Hne). eauto.
  - left. rewrite tool_create_rejects by now left. eauto.
Qed.

Lemma tool_list_answers_or_raises (w : World) :
  answers_or_raises McpServer.list_research_tasks w.
Proof.
  unfold answers_or_raises.
  destruct (db_fault w) as [msg|] eqn:Hdb.
  - right. rewrite (tool_list_fault w msg Hdb). eauto.
  - left. rewrite (tool_list_ok w Hdb). eauto.
Qed.

Lemma tool_update_answers_or_raises (arguments : McpServer.Args.t) (w : World) :
  answers_or_raises (McpServer.update_research_task arguments) w.
Proof.
  unfold answers_or_raises.
  destruct (McpServer.Args.task_id arguments) as [task_id|] eqn:Hid.
  - destruct (Z.eq_dec task_id 0) as [->|Hnz].
    + left. rewrite tool_update_required by now right. eauto.
    + destruct (db_fault w) as [msg|] eqn:Hdb.
      * right. rewrite (tool_update_fault w arguments task_id msg Hdb Hid Hnz). eauto.
      * destruct (Db.first task_id (research_tasks w)) as [task|] eqn:Hfirst.
        -- left. rewrite (tool_update_ok w arguments task_id task Hdb Hid Hnz Hfirst).
           eauto.
        -- left. rewrite (tool_update_missing w arguments task_id Hdb Hid Hnz Hfirst).
           eauto.
  - left. rewrite tool_update_required by now left. eauto.
Qed.

Lemma tool_analyze_answers_or_raises (arguments : McpServer.Args.t) (w : World) :
  answers_or_raises (McpServer.analyze_content arguments) w.
Proof.
  unfold answers_or_raises. left.
  destruct (McpServer.Args.content arguments) as [[|c s]|] eqn:Hc.
  - rewrite tool_analyze_rejects by now right. eauto.
  - assert (Hne : String c s <> EmptyString) by discriminate.
    destruct (tool_analyze_runs w arguments _ Hc Hne) as (text & _ & E).
    rewrite E. eauto.
  - rewrite tool_analyze_rejects by now left. eauto.
Qed.

Lemma dispatch_answers_or_raises (name : string) (arguments : McpServer.Args.t)
      (w : World) :
  answers_or_raises (dispatch name arguments) w.
Proof.
  unfold dispatch.
  destruct (String.eqb name "create_research_task");
    [apply tool_create_answers_or_raises|].
  destruct (String.eqb name "list_research_tasks");
    [apply tool_list_answers_or_raises|].
  destruct (String.eqb name "update_research_task");
    [apply tool_update_answers_or_raises|].
  destruct (String.eqb name "analyze_content");
    [apply tool_analyze_answers_or_raises|].
  left. unfold ret. eauto.
Qed.

(** C9: for every tool name and every argument dictionary (and whatever
    the state of the database and of the LLM endpoint), the dispatcher returns
    and does not raise; what it returns is an envelope that is not marked as an
    error and holds one text block.  When the tool it dispatches to raises an
    exception [e], the text is ["Error: "] followed by [str(e)]; otherwise the
    envelope is the tool's own. *)
Theorem handle_call_tool_always_answers
        (name : string) (arguments : McpServer.Args.t) (w : World) :
  exists (text : string) (w' : World),
    McpServer.handle_call_tool name arguments w
    = (inr (McpServer.text_result text), w')
    /\ McpServer.CallToolResult.isError (McpServer.text_result text) = false
    /\ McpServer.CallToolResult.content (McpServer.text_result text)
       = [ {| McpServer.TextContent.type := "text";
              McpServer.TextContent.text := text |} ]
    /\ (forall (e : Exception) (w1 : World),
           dispatch name arguments w = (inl e, w1) ->
           text = "Error: " ++ str e /\ w' = w1)
    /\ (forall (r : McpServer.CallToolResult.t) (w1 : World),
           dispatch name arguments w = (inr r, w1) ->
           r = McpServer.text_result text /\ w' = w1).
Proof.
  destruct (dispatch_answers_or_raises name arguments w)
    as [(text & w' & E)|(e & w' & E)].
  - exists text, w'.
    split; [now apply handle_call_tool_returns|].
    split; [reflexivity|]. split; [reflexivity|].
    rewrite E. split.
    + intros e w1 H. discriminate.
    + intros r w1 H. inversion H. now split.
  - exists ("Error: " ++ str e), w'.
    split; [now apply handle_call_tool_catches|].
    split; [reflexivity|]. split; [reflexivity|].
    rewrite E. split.
    + intros e' w1 H. inversion H. now split.
    + intros r w1 H. discriminate.
Qed.

(** The dispatcher on a database that is out of order, on a tool it does
    not know, and on an id that is not there (where the HTTP adapter raises a
    client error). *)
Example handle_call_tool_wraps_database_error :
  McpServer.list_research_tasks locked_world
  = (inl (OperationalError "database is locked"), locked_world)
  /\ McpServer.handle_call_tool "list_research_tasks"
       {| McpServer.Args.query := None;
          McpServer.Args.task_id := None;
          McpServer.Args.status := None;
          McpServer.Args.result := None;
          McpServer.Args.content := None |}
       locked_world
     = (inr (McpServer.text_result "Error: database is locked"), locked_world).
Proof. split; reflexivity. Qed.

Example handle_call_tool_unknown_tool :
  fst (McpServer.handle_call_tool "delete_research_task"
         {| McpServer.Args.query := None;
            McpServer.Args.task_id := Some 1;
            McpServer.Args.status := None;
            McpServer.Args.result := None;
            McpServer.Args.content := None |}
         done_world)
  = inr (McpServer.text_result "Unknown tool: delete_research_task").
Proof. reflexivity. Qed.

Example handle_call_tool_lists_tasks :
  fst (McpServer.handle_call_tool "list_research_tasks"
         {| McpServer.Args.query := None;
            McpServer.Args.task_id := None;
            McpServer.Args.status := None;
            McpServer.Args.result := None;
            McpServer.Args.content := None |}
         done_world)
  = inr (McpServer.text_result
           ("Research Tasks:" ++ Py.nl
              ++ "ID: 1, Query: best laptop 2024, Status: completed")).
Proof. reflexivity. Qed.

(** ** Analysing content *)



(** With the endpoint down, both adapters return the fallback. *)
Example analyze_returns_fallback :
  fst (Main.post_analyze (Some "Some page text.") (fresh_world endpoint_down))
  = inr {| Main.ContentAnalysisResponse.analysis := "LLM did not return a result." |}
  /\ fst (McpServer.handle_call_tool "analyze_content"
            {| McpServer.Args.query := None;
               McpServer.Args.task_id := None;
               McpServer.Args.status := None;
               McpServer.Args.result := None;
               McpServer.Args.content := Some "Some page text." |}
            (fresh_world endpoint_down))
     = inr (McpServer.text_result "LLM did not return a result.").
Proof. split; reflexivity. Qed.

(** ** The two adapters side by side *)

(** C6, as the claim words it, fails: for task 1, completed, and the status
    given as the empty string, the HTTP adapter's update leaves the task with
    the empty status and the tool-call adapter's leaves it completed. *)
Lemma adapters_differ_on_empty_status :
  Db.first 1 (research_tasks done_world) = Some done_task
  /\ option_map ResearchTaskORM.status
       (Db.first 1
          (research_tasks
             (snd (Main.update_research_task
                     {| Main.ResearchTaskUpdate.status := Some EmptyString;
                        Main.ResearchTaskUpdate.result := None |} 1 done_world))))
     = Some EmptyString
  /\ option_map ResearchTaskORM.status
       (Db.first 1
          (research_tasks
             (snd (McpServer.handle_call_tool "update_research_task"
                     {| McpServer.Args.query := None;
                        McpServer.Args.task_id := Some 1;
                        McpServer.Args.status := Some EmptyString;
                        McpServer.Args.result := None;
                        McpServer.Args.content := None |}
                     done_world))))
     = Some "completed".
Proof. repeat split. Qed.

(** C6, amended: the two adapters change the world in the same way, and
    return results that correspond, on these inputs: a listing, always; a
    create whose query is not empty; an update whose task id is not zero and
    whose status and result are each absent or not empty; an analysis whose
    content is not empty; and the background write-back, always.  For such an
    update of a task in the store, the task ends in the same state under both.
    The tool's text names what the HTTP adapter returns: the id and status of
    the created or updated record, the analysis; where the HTTP adapter
    raises 404 the tool answers that the task was not found, and where the
    database raises the tool's handler raises the same. *)
Theorem adapters_agree_on_truthy_inputs (w : World) :
  (snd (Main.get_research_tasks w) = w
   /\ snd (McpServer.list_research_tasks w) = w
   /\ match fst (Main.get_research_tasks w) with
      | inr [] =>
          fst (McpServer.list_research_tasks w)
          = inr (McpServer.text_result "No research tasks found.")
      | inr (_ :: _) =>
          fst (McpServer.list_research_tasks w)
          = inr (McpServer.text_result
                   ("Research Tasks:" ++ Py.nl
                      ++ Py.join Py.nl (map McpServer.task_line (research_tasks w))))
      | inl e => fst (McpServer.list_research_tasks w) = inl e
      end)
  /\ (forall (arguments : McpServer.Args.t) (query : string),
         McpServer.Args.query arguments = Some query ->
         query <> EmptyString ->
         snd (McpServer.create_research_task arguments w)
         = snd (Main.post_research (Some query) w)
         /\ match fst (Main.post_research (Some query) w) with
            | inr t =>
                fst (McpServer.create_research_task arguments w)
                = inr (McpServer.text_result
                         ("Research task created with ID "
                            ++ Py.str_int (ResearchTask.id t)
                            ++ ". Status: " ++ ResearchTask.status t))
            | inl e => fst (McpServer.create_research_task arguments w) = inl e
            end)
  /\ (forall (arguments : McpServer.Args.t) (task_id : Z),
         McpServer.Args.task_id arguments = Some task_id ->
         task_id <> 0 ->
         McpServer.Args.status arguments <> Some EmptyString ->
         McpServer.Args.result arguments <> Some EmptyString ->
         snd (McpServer.update_research_task arguments w)
         = snd (Main.update_research_task
                  {| Main.ResearchTaskUpdate.status := McpServer.Args.status arguments;
                     Main.ResearchTaskUpdate.result := McpServer.Args.result arguments |}
                  task_id w)
         /\ match fst (Main.update_research_task
                         {| Main.ResearchTaskUpdate.status :=
                              McpServer.Args.status arguments;
                            Main.ResearchTaskUpdate.result :=
                              McpServer.Args.result arguments |}
                         task_id w) with
            | inr t =>
                fst (McpServer.update_research_task arguments w)
                = inr (McpServer.text_result
                         ("Task " ++ Py.str_int task_id
                            ++ " updated successfully. Status: "
                            ++ ResearchTask.status t))
            | inl (HTTPException _ _) =>
                fst (McpServer.update_research_task arguments w)
                = inr (McpServer.text_result
                         ("Task " ++ Py.str_int task_id ++ " not found"))
            | inl e => fst (McpServer.update_research_task arguments w) = inl e
            end)
  /\ (forall (arguments : McpServer.Args.t) (content : string),
         McpServer.Args.content arguments = Some content ->
         content <> EmptyString ->
         snd (McpServer.analyze_content arguments w)
         = snd (Main.post_analyze (Some content) w)
         /\ match fst (Main.post_analyze (Some content) w) with
            | inr r =>
                fst (McpServer.analyze_content arguments w)
                = inr (McpServer.text_result (Main.ContentAnalysisResponse.analysis r))
            | inl e => fst (McpServer.analyze_content arguments w) = inl e
            end)
  /\ (forall (task_id : Z) (query : string),
         McpServer.generate_llm_response task_id query w
         = Main.llm_generate_scraping_strategy task_id query w).
Proof.
  split.
  { destruct (db_fault w) as [msg|] eqn:Hdb.
    - rewrite (http_list_fault w msg Hdb), (tool_list_fault w msg Hdb). now repeat split.
    - rewrite (http_list_ok w Hdb), (tool_list_ok w Hdb).
      split; [reflexivity|]. split; [reflexivity|].
      simpl. now destruct (research_tasks w). }
  split.
  { intros arguments query Hq Hne.
    destruct (db_fault w) as [msg|] eqn:Hdb.
    - simpl Main.post_research.
      rewrite (http_create_fault w query msg Hdb),
        (tool_create_fault w arguments query msg Hdb Hq Hne).
      now split.
    - simpl Main.post_research.
      rewrite (http_create_ok w query Hdb), (tool_create_ok w arguments query Hdb Hq Hne).
      now split. }
  split.
  { intros arguments task_id Harg Hnz Hs Hr.
    assert (Es : Py.truthy Py.bool_str (McpServer.Args.status arguments)
                 = McpServer.Args.status arguments)
      by (revert Hs; destruct (McpServer.Args.status arguments) as [[|c s]|];
          intros Hs; simpl; congruence).
    assert (Er : Py.truthy Py.bool_str (McpServer.Args.result arguments)
                 = McpServer.Args.result arguments)
      by (revert Hr; destruct (McpServer.Args.result arguments) as [[|c s]|];
          intros Hr; simpl; congruence).
    destruct (db_fault w) as [msg|] eqn:Hdb.
    - rewrite (http_update_fault w _ task_id msg Hdb),
        (tool_update_fault w arguments task_id msg Hdb Harg Hnz).
      now split.
    - destruct (Db.first task_id (research_tasks w)) as [task|] eqn:Hfirst.
      + rewrite (http_update_ok w _ task_id task Hdb Hfirst),
          (tool_update_ok w arguments task_id task Hdb Harg Hnz Hfirst).
        cbn [Main.ResearchTaskUpdate.status Main.ResearchTaskUpdate.result].
        rewrite Es, Er. now split.
      + rewrite (http_update_missing w _ task_id Hdb Hfirst),
          (tool_update_missing w arguments task_id Hdb Harg Hnz Hfirst).
        now split. }
  split.
  { intros arguments content Hc Hne.
    destruct (http_analyze_runs w content) as (text & Hgen & Hhttp).
    destruct (tool_analyze_runs w arguments content Hc Hne) as (text' & Hgen' & Htool).
    rewrite Hgen in Hgen'. inversion Hgen'. subst text'.
    simpl Main.post_analyze. rewrite Hhttp, Htool. now split. }
  intros task_id query. now rewrite write_back_jobs_agree.
Qed.

(** The two updates of task 1 with the status ["archived"]. *)
Example adapters_agree_on_archiving :
  snd (McpServer.handle_call_tool "update_research_task"
         {| McpServer.Args.query := None;
            McpServer.Args.task_id := Some 1;
            McpServer.Args.status := Some "archived";
            McpServer.Args.result := None;
            McpServer.Args.content := None |}
         done_world)
  = snd (Main.update_research_task
           {| Main.ResearchTaskUpdate.status := Some "archived";
              Main.ResearchTaskUpdate.result := None |} 1 done_world).
Proof. reflexivity. Qed.

(* ===================================================================== *)
(** * Further properties *)
(* ===================================================================== *)

(** ** How each call changes the store and the queue *)

Lemma completed_fields (text : option string) (task : ResearchTaskORM.t) :
  ResearchTaskORM.id (completed text task) = ResearchTaskORM.id task
  /\ ResearchTaskORM.query (completed text task) = ResearchTaskORM.query task
  /\ ResearchTaskORM.timestamp (completed text task) = ResearchTaskORM.timestamp task
  /\ ResearchTaskORM.status (completed text task) = "completed"
  /\ ResearchTaskORM.result (completed text task) = Some (Py.or_str text no_result).
Proof. repeat split. Qed.

Lemma evolves_patched (w w' : World) (task_id : Z) (task : ResearchTaskORM.t)
      (status result : option string) :
  Db.first task_id (research_tasks w) = Some task ->
  research_tasks w' = Db.write_back (patched status result task) (research_tasks w) ->
  background w' = background w ->
  evolves w w'.
Proof.
  intros Hfirst Hrows Hbg.
  apply (evolves_written w w' task (patched status result task)).
  - rewrite patched_id, (first_id _ _ _ Hfirst). exact Hfirst.
  - apply patched_query.
  - apply patched_timestamp.
  - exact Hrows.
  - now left.
Qed.

Lemma write_back_job_evolves (w : World) (task_id : Z) (query : string)
      (rest : list (Z * string)) :
  background w = (task_id, query) :: rest ->
  evolves w (snd (Main.llm_generate_scraping_strategy task_id query
                    (set_background rest w))).
Proof.
  intros Hbg.
  set (w0 := set_background rest w).
  assert (Hshrink : forall w', background w' = rest -> queue_shrinks w w').
  { intros w' H. right. exists (task_id, query). now rewrite H. }
  destruct (db_fault w0) as [msg|] eqn:Hdb.
  - rewrite (write_back_job_fault w0 task_id query msg Hdb).
    apply evolves_same; [reflexivity|now apply Hshrink].
  - destruct (Db.first task_id (research_tasks w0)) as [task|] eqn:Hfirst.
    + destruct (write_back_job_ok w0 task_id query task Hdb Hfirst) as (text & _ & E).
      rewrite E.
      apply (evolves_written w _ task (completed text task)).
      * change (ResearchTaskORM.id (completed text task)) with (ResearchTaskORM.id task).
        rewrite (first_id _ _ _ Hfirst). exact Hfirst.
      * reflexivity.
      * reflexivity.
      * reflexivity.
      * now apply Hshrink.
    + rewrite (write_back_job_missing w0 task_id query Hdb Hfirst).
      apply evolves_same; [reflexivity|now apply Hshrink].
Qed.

Lemma run_next_evolves (w : World) :
  evolves w (snd (Scheduler.run_next Main.llm_generate_scraping_strategy w)).
Proof.
  unfold Scheduler.run_next.
  destruct (background w) as [|[task_id query] rest] eqn:Hbg.
  - apply evolves_same; [reflexivity|now left].
  - now apply write_back_job_evolves.
Qed.

Lemma http_create_evolves (w : World) (query : option string) :
  evolves w (snd (Main.post_research query w)).
Proof.
  destruct query as [query|]; simpl;
    [|apply evolves_same; [reflexivity|now left]].
  destruct (db_fault w) as [msg|] eqn:Hdb.
  - rewrite (http_create_fault w query msg Hdb).
    apply evolves_same; [reflexivity|now left].
  - rewrite (http_create_ok w query Hdb).
    now apply (evolves_inserted w _ (utcnow w) query).
Qed.

Lemma http_update_evolves (w : World) (update : Main.ResearchTaskUpdate.t) (task_id : Z) :
  evolves w (snd (Main.update_research_task update task_id w)).
Proof.
  destruct (db_fault w) as [msg|] eqn:Hdb.
  - rewrite (http_update_fault w update task_id msg Hdb).
    apply evolves_same; [reflexivity|now left].
  - destruct (Db.first task_id (research_tasks w)) as [task|] eqn:Hfirst.
    + rewrite (http_update_ok w update task_id task Hdb Hfirst).
      now eapply evolves_patched; eauto.
    + rewrite (http_update_missing w update task_id Hdb Hfirst).
      apply evolves_same; [reflexivity|now left].
Qed.

Lemma http_analyze_evolves (w : World) (content : option string) :
  evolves w (snd (Main.post_analyze content w)).
Proof.
  destruct content as [content|]; simpl;
    [|apply evolves_same; [reflexivity|now left]].
  destruct (http_analyze_runs w content) as (text & _ & E).
  rewrite E. apply evolves_same; [reflexivity|now left].
Qed.

Lemma http_list_evolves (w : World) :
  evolves w (snd (Main.get_research_tasks w)).
Proof.
  destruct (db_fault w) as [msg|] eqn:Hdb.
  - rewrite (http_list_fault w msg Hdb). apply evolves_same; [reflexivity|now left].
  - rewrite (http_list_ok w Hdb). apply evolves_same; [reflexivity|now left].
Qed.

Lemma tool_create_evolves (w : World) (arguments : McpServer.Args.t) :
  evolves w (snd (McpServer.create_research_task arguments w)).
Proof.
  destruct (McpServer.Args.query arguments) as [[|c q]|] eqn:Hq.
  - rewrite tool_create_rejects by now right.
    apply evolves_same; [reflexivity|now left].
  - assert (Hne : String c q <> EmptyString) by discriminate.
    destruct (db_fault w) as [msg|] eqn:Hdb.
    + rewrite (tool_create_fault w arguments _ msg Hdb Hq Hne).
      apply evolves_same; [reflexivity|now left].
    + rewrite (tool_create_ok w arguments _ Hdb Hq Hne).
      now apply (evolves_inserted w _ (utcnow w) (String c q)).
  - rewrite tool_create_rejects by now left.
    apply evolves_same; [reflexivity|now left].
Qed.

Lemma tool_update_evolves (w : World) (arguments : McpServer.Args.t) :
  evolves w (snd (McpServer.update_research_task arguments w)).
Proof.
  destruct (McpServer.Args.task_id arguments) as [task_id|] eqn:Hid.
  - destruct (Z.eq_dec task_id 0) as [->|Hnz].
    + rewrite tool_update_required by now right.
      apply evolves_same; [reflexivity|now left].
    + destruct (db_fault w) as [msg|] eqn:Hdb.
      * rewrite (tool_update_fault w arguments task_id msg Hdb Hid Hnz).
        apply evolves_same; [reflexivity|now left].
      * destruct (Db.first task_id (research_tasks w)) as [task|] eqn:Hfirst.
        -- rewrite (tool_update_ok w arguments task_id task Hdb Hid Hnz Hfirst).
           now eapply evolves_patched; eauto.
        -- rewrite (tool_update_missing w arguments task_id Hdb Hid Hnz Hfirst).
           apply evolves_same; [reflexivity|now left].
  - rewrite tool_update_required by now left.
    apply evolves_same; [reflexivity|now left].
Qed.

Lemma tool_list_evolves (w : World) :
  evolves w (snd (McpServer.list_research_tasks w)).
Proof.
  destruct (db_fault w) as [msg|] eqn:Hdb.
  - rewrite (tool_list_fault w msg Hdb). apply evolves_same; [reflexivity|now left].
  - rewrite (tool_list_ok w Hdb). apply evolves_same; [reflexivity|now left].
Qed.

Lemma tool_analyze_evolves (w : World) (arguments : McpServer.Args.t) :
  evolves w (snd (McpServer.analyze_content arguments w)).
Proof.
  destruct (McpServer.Args.content arguments) as [[|c s]|] eqn:Hc.
  - rewrite tool_analyze_rejects by now right.
    apply evolves_same; [reflexivity|now left].
  - assert (Hne : String c s <> EmptyString) by discriminate.
    destruct (tool_analyze_runs w arguments _ Hc Hne) as (text & _ & E).
    rewrite E. apply evolves_same; [reflexivity|now left].
  - rewrite tool_analyze_rejects by now left.
    apply evolves_same; [reflexivity|now left].
Qed.

Lemma dispatch_evolves (name : string) (arguments : McpServer.Args.t) (w : World) :
  evolves w (snd (dispatch name arguments w)).
Proof.
  unfold dispatch.
  destruct (String.eqb name "create_research_task"); [apply tool_create_evolves|].
  destruct (String.eqb name "list_research_tasks"); [apply tool_list_evolves|].
  destruct (String.eqb name "update_research_task"); [apply tool_update_evolves|].
  destruct (String.eqb name "analyze_content"); [apply tool_analyze_evolves|].
  apply evolves_same; [reflexivity|now left].
Qed.

Lemma perform_evolves (c : Call) (w : World) : evolves w (perform c w).
Proof.
  destruct c; simpl.
  - apply http_list_evolves.
  - apply http_create_evolves.
  - apply http_update_evolves.
  - apply http_analyze_evolves.
  - rewrite handle_call_tool_world. apply dispatch_evolves.
  - apply run_next_evolves.
  - apply run_next_evolves.
  - apply evolves_same; [reflexivity|now left].
Qed.

(** ** What a history keeps *)

Lemma first_key_in (k : Z) (rows : list ResearchTaskORM.t) (t : ResearchTaskORM.t) :
  Db.first k rows = Some t -> In k (map ResearchTaskORM.id rows).
Proof.
  intros H. rewrite <- (first_id _ _ _ H). apply in_map. eapply first_In; eauto.
Qed.

Lemma evolves_keeps_task (w w' : World) (k : Z) (t : ResearchTaskORM.t) :
  evolves w w' ->
  Db.first k (research_tasks w) = Some t ->
  exists t' : ResearchTaskORM.t,
    Db.first k (research_tasks w') = Some t'
    /\ ResearchTaskORM.query t' = ResearchTaskORM.query t
    /\ ResearchTaskORM.timestamp t' = ResearchTaskORM.timestamp t.
Proof.
  intros [Hrows _|task task' Hfirst Hq Hts Hrows _|now query Hrows _] Hk.
  - exists t. rewrite Hrows. now repeat split.
  - destruct (Z.eq_dec (ResearchTaskORM.id task') k) as [E|E].
    + exists task'. rewrite Hrows. rewrite E in Hfirst.
      assert (task = t) by congruence. subst task.
      split; [eapply first_write_back; eauto|]. now split.
    + exists t. rewrite Hrows. split; [|now split].
      rewrite first_write_back_other by assumption. exact Hk.
  - exists t. rewrite Hrows. split; [|now split].
    rewrite first_app_old; [exact Hk|].
    simpl. intros ->. apply (next_id_fresh (research_tasks w)).
    eapply first_key_in; eauto.
Qed.

Lemma queue_shrinks_In (w w' : World) (job : Z * string) :
  queue_shrinks w w' -> In job (background w') -> In job (background w).
Proof.
  intros [E|[j E]] H; rewrite E in *; [assumption|now right].
Qed.

Lemma evolves_jobs_refer_to_tasks (w w' : World) :
  evolves w w' -> jobs_refer_to_tasks w -> jobs_refer_to_tasks w'.
Proof.
  intros Hev Hinv task_id query Hin.
  assert (Hold : In (task_id, query) (background w) ->
                 exists task : ResearchTaskORM.t,
                   Db.first task_id (research_tasks w') = Some task
                   /\ ResearchTaskORM.query task = query).
  { intros Hin'. destruct (Hinv task_id query Hin') as (t & Ht & Hq).
    destruct (evolves_keeps_task w w' task_id t Hev Ht) as (t' & Ht' & Hq' & _).
    exists t'. split; [assumption|congruence]. }
  destruct Hev as [_ Hs|task task' _ _ _ _ Hs|now q Hrows Hbg].
  - apply Hold. eapply queue_shrinks_In; eauto.
  - apply Hold. eapply queue_shrinks_In; eauto.
  - rewrite Hbg in Hin. apply in_app_or in Hin. destruct Hin as [Hin|[Hin|[]]].
    + now apply Hold.
    + inversion Hin; subst.
      exists (pending_task (research_tasks w) now query). rewrite Hrows.
      split; [|reflexivity].
      exact (first_app_new (research_tasks w)
               (pending_task (research_tasks w) now query) (next_id_fresh _)).
Qed.

Lemma history_evolves_invariant (P : World -> Prop) :
  (forall w w' : World, evolves w w' -> P w -> P w') ->
  forall (calls : list Call) (w : World), P w -> P (history calls w).
Proof.
  intros Hstep calls. unfold history.
  induction calls as [|c calls IH]; simpl; intros w H; [assumption|].
  apply IH. eapply Hstep; [apply perform_evolves|assumption].
Qed.

(** ** Keys are handed out in order *)

Lemma fold_max_le (i : Z) (ids : list Z) (m : Z) :
  (forall x : Z, In x (i :: ids) -> x <= m) -> fold_right Z.max i ids <= m.
Proof.
  induction ids as [|a ids IH]; simpl; intros H.
  - apply H. now left.
  - assert (a <= m) by (apply H; right; now left).
    assert (fold_right Z.max i ids <= m).
    { apply IH. intros x [E|Hx]; apply H; [now left|right; now right]. }
    lia.
Qed.

Lemma next_id_numbered (rows : list ResearchTaskORM.t) (n : nat) :
  map ResearchTaskORM.id rows = map Z.of_nat (seq 1 n) ->
  Db.next_id rows = Z.of_nat (S n).
Proof.
  intros H.
  assert (Hlow : forall k, In k (map ResearchTaskORM.id rows) -> k < Db.next_id rows)
    by (intros k; apply next_id_above).
  assert (Hup : Db.next_id rows <= Z.of_nat n + 1).
  { unfold Db.next_id. rewrite H.
    destruct (map Z.of_nat (seq 1 n)) as [|i ids] eqn:E; [lia|].
    assert (fold_right Z.max i ids <= Z.of_nat n); [|lia].
    apply fold_max_le. intros x Hx. rewrite <- E in Hx.
    apply in_map_iff in Hx. destruct Hx as (j & <- & Hj).
    apply in_seq in Hj. lia. }
  destruct n as [|n].
  - unfold Db.next_id. rewrite H. reflexivity.
  - assert (Z.of_nat (S n) < Db.next_id rows); [|lia].
    apply Hlow. rewrite H. apply in_map. apply in_seq. lia.
Qed.

Lemma grows_numbered (w w' : World) :
  grows w w' ->
  (exists n : nat, task_ids w = map Z.of_nat (seq 1 n)) ->
  exists n : nat, task_ids w' = map Z.of_nat (seq 1 n).
Proof.
  intros [E|E] [n Hn].
  - exists n. now rewrite E.
  - exists (S n). rewrite E, Hn, (next_id_numbered _ n Hn).
    rewrite seq_S, map_app. reflexivity.
Qed.

Lemma history_numbered (calls : list Call) (w : World) :
  (exists n : nat, task_ids w = map Z.of_nat (seq 1 n)) ->
  exists n : nat, task_ids (history calls w) = map Z.of_nat (seq 1 n).
Proof.
  unfold history. revert w.
  induction calls as [|c calls IH]; simpl; intros w H; [assumption|].
  apply IH. eapply grows_numbered; [apply perform_grows|assumption].
Qed.

Lemma numbered_NoDup (n : nat) : NoDup (map Z.of_nat (seq 1 n)).
Proof.
  generalize 1%nat. induction n as [|n IH]; intros start; simpl; constructor.
  - intros H. apply in_map_iff in H. destruct H as (j & E & Hj).
    apply Nat2Z.inj in E. subst j. apply in_seq in Hj. lia.
  - apply IH.
Qed.

(** ** The scheduler runs the queue *)





(** X1: from an empty table, whatever calls are made, the keys of the
    stored tasks are 1, 2, ..., n in the order of the rows: keys are handed
    out in order, without gaps, and no two tasks share one. *)
Theorem keys_are_numbered_in_order (calls : list Call) (w : World) :
  research_tasks w = [] ->
  (exists n : nat, task_ids (history calls w) = map Z.of_nat (seq 1 n))
  /\ NoDup (task_ids (history calls w)).
Proof.
  intros Hempty.
  assert (H : exists n : nat, task_ids (history calls w) = map Z.of_nat (seq 1 n)).
  { apply history_numbered. exists 0%nat. unfold task_ids. now rewrite Hempty. }
  split; [exact H|].
  destruct H as [n ->]. apply numbered_NoDup.
Qed.

Lemma keys_are_numbered_in_order_witness :
  research_tasks (fresh_world endpoint_down) = []
  /\ task_ids (history [HttpPostResearch (Some "a");
                        ToolCall "create_research_task"
                          {| McpServer.Args.query := Some "b";
                             McpServer.Args.task_id := None;
                             McpServer.Args.status := None;
                             McpServer.Args.result := None;
                             McpServer.Args.content := None |};
                        HttpBackground;
                        HttpPostResearch (Some "c")]
                 (fresh_world endpoint_down))
     = [1; 2; 3]
  /\ NoDup (task_ids (history [HttpPostResearch (Some "a");
                               ToolCall "create_research_task"
                                 {| McpServer.Args.query := Some "b";
                                    McpServer.Args.task_id := None;
                                    McpServer.Args.status := None;
                                    McpServer.Args.result := None;
                                    McpServer.Args.content := None |};
                               HttpBackground;
                               HttpPostResearch (Some "c")]
                        (fresh_world endpoint_down))).
Proof.
  split; [reflexivity|]. split; [reflexivity|].
  apply (keys_are_numbered_in_order _ (fresh_world endpoint_down) eq_refl).
Defined.

(** X2: a task in the store stays in the store under its key, with the
    query and the timestamp it has, whatever calls follow: no call removes a
    task or changes its query or timestamp. *)
Theorem tasks_keep_query_and_timestamp
        (calls : list Call) (w : World) (k : Z) (t : ResearchTaskORM.t) :
  Db.first k (research_tasks w) = Some t ->
  exists t' : ResearchTaskORM.t,
    Db.first k (research_tasks (history calls w)) = Some t'
    /\ ResearchTaskORM.id t' = ResearchTaskORM.id t
    /\ ResearchTaskORM.query t' = ResearchTaskORM.query t
    /\ ResearchTaskORM.timestamp t' = ResearchTaskORM.timestamp t.
Proof.
  intros Hk.
  apply (history_evolves_invariant
           (fun w' => exists t' : ResearchTaskORM.t,
                Db.first k (research_tasks w') = Some t'
                /\ ResearchTaskORM.id t' = ResearchTaskORM.id t
                /\ ResearchTaskORM.query t' = ResearchTaskORM.query t
                /\ ResearchTaskORM.timestamp t' = ResearchTaskORM.timestamp t)).
  - intros w1 w2 Hev (t1 & H1 & Hi1 & Hq1 & Ht1).
    destruct (evolves_keeps_task w1 w2 k t1 Hev H1) as (t2 & H2 & Hq2 & Ht2).
    exists t2. split; [exact H2|].
    split; [rewrite (first_id _ _ _ H2), <- (first_id _ _ _ H1); exact Hi1|].
    split; congruence.
  - exists t. now repeat split.
Qed.

Lemma tasks_keep_query_and_timestamp_witness :
  Db.first 1 (research_tasks (laptop_world endpoint_down)) = Some laptop_task
  /\ exists t' : ResearchTaskORM.t,
       Db.first 1
         (research_tasks
            (history [HttpBackground;
                      HttpPatchResearch
                        {| Main.ResearchTaskUpdate.status := Some "archived";
                           Main.ResearchTaskUpdate.result := Some "none" |} 1]
               (laptop_world endpoint_down)))
       = Some t'
       /\ ResearchTaskORM.id t' = ResearchTaskORM.id laptop_task
       /\ ResearchTaskORM.query t' = ResearchTaskORM.query laptop_task
       /\ ResearchTaskORM.timestamp t' = ResearchTaskORM.timestamp laptop_task.
Proof.
  split; [reflexivity|].
  apply (tasks_keep_query_and_timestamp _ (laptop_world endpoint_down) 1 laptop_task
           eq_refl).
Defined.

(** X3: starting with an empty queue, every write-back that is queued
    after any calls is for a task that is in the store, and carries the query
    of that task: the write-back's early return for a task that is not found
    is never taken for a queued job. *)
Theorem queued_jobs_refer_to_stored_tasks
        (calls : list Call) (w : World) (task_id : Z) (query : string) :
  background w = [] ->
  In (task_id, query) (background (history calls w)) ->
  exists task : ResearchTaskORM.t,
    Db.first task_id (research_tasks (history calls w)) = Some task
    /\ ResearchTaskORM.query task = query.
Proof.
  intros Hempty.
  apply (history_evolves_invariant jobs_refer_to_tasks evolves_jobs_refer_to_tasks).
  intros id q Hin. rewrite Hempty in Hin. destruct Hin.
Qed.

Lemma queued_jobs_refer_to_stored_tasks_witness :
  background (fresh_world endpoint_down) = []
  /\ In (1, "best laptop 2024")
       (background (history [HttpPostResearch (Some "best laptop 2024")]
                      (fresh_world endpoint_down)))
  /\ exists task : ResearchTaskORM.t,
       Db.first 1
         (research_tasks (history [HttpPostResearch (Some "best laptop 2024")]
                            (fresh_world endpoint_down)))
       = Some task
       /\ ResearchTaskORM.query task = "best laptop 2024".
Proof.
  split; [reflexivity|]. split; [now left|].
  apply (queued_jobs_refer_to_stored_tasks
           [HttpPostResearch (Some "best laptop 2024")]
           (fresh_world endpoint_down) 1 "best laptop 2024" eq_refl).
  now left.
Defined.



(** ** Listing *)

Lemma creates_cons (q : string) (queries : list string) (w : World) :
  creates (q :: queries) w = creates queries (snd (Main.post_research (Some q) w)).
Proof. reflexivity. Qed.

Lemma creates_rows (queries : list string) (w : World) :
  db_fault w = None ->
  db_fault (creates queries w) = None
  /\ exists news : list ResearchTaskORM.t,
       research_tasks (creates queries w) = (research_tasks w ++ news)%list
       /\ map ResearchTaskORM.query news = queries
       /\ Forall (fun t => ResearchTaskORM.status t = "pending"
                           /\ ResearchTaskORM.result t = None) news.
Proof.
  revert w. induction queries as [|q queries IH]; intros w Hdb.
  - split; [exact Hdb|]. exists []. rewrite app_nil_r. now repeat split.
  - rewrite creates_cons.
    assert (E : Main.post_research (Some q) w
                = (inr (Main.ResearchTask_of
                          (pending_task (research_tasks w) (utcnow w) q)),
                   set_background
                     (background w ++ [(Db.next_id (research_tasks w), q)])
                     (set_research_tasks
                        (research_tasks w
                           ++ [pending_task (research_tasks w) (utcnow w) q]) w)))
      by exact (http_create_ok w q Hdb).
    rewrite E. cbn [snd].
    match goal with |- context [creates queries ?w1] => destruct (IH w1 Hdb) as [Hdb' (news & Hrows & Hq & Hp)] end.
    split; [exact Hdb'|].
    exists (pending_task (research_tasks w) (utcnow w) q :: news).
    split.
    { rewrite Hrows. cbn [research_tasks set_background set_research_tasks].
      rewrite <- app_assoc. reflexivity. }
    split; [simpl; now rewrite Hq|].
    constructor; [now split|exact Hp].
Qed.

Lemma first_of_member (rows : list ResearchTaskORM.t) (t : ResearchTaskORM.t) :
  NoDup (map ResearchTaskORM.id rows) ->
  In t rows ->
  Db.first (ResearchTaskORM.id t) rows = Some t.
Proof.
  unfold Db.first. induction rows as [|r rows IH]; simpl; intros ND Hin;
    [contradiction|].
  destruct Hin as [E|Hin].
  - subst r. now rewrite Z.eqb_refl.
  - inversion ND as [|? ? Hnotin ND']; subst.
    destruct (Z.eqb_spec (ResearchTaskORM.id r) (ResearchTaskORM.id t)) as [E|E].
    + exfalso. apply Hnotin. rewrite E. now apply in_map.
    + now apply IH.
Qed.

Lemma http_list_returned (w : World) (records : list ResearchTask.t) :
  fst (Main.get_research_tasks w) = inr records ->
  db_fault w = None /\ records = map Main.ResearchTask_of (research_tasks w).
Proof.
  destruct (db_fault w) as [msg|] eqn:Hdb.
  - rewrite (http_list_fault w msg Hdb). discriminate.
  - rewrite (http_list_ok w Hdb). intros H. inversion H. now split.
Qed.

(** X5: on a working database with an empty table, after one create through
    the HTTP adapter per query the listing returns as many records as there
    were creates, with the ids 1, 2, ..., n and the queries in the order of
    the creates, each pending and without a result. *)
Theorem listing_after_creates (queries : list string) (w : World) :
  db_fault w = None ->
  research_tasks w = [] ->
  exists records : list ResearchTask.t,
    fst (Main.get_research_tasks (creates queries w)) = inr records
    /\ List.length records = List.length queries
    /\ map ResearchTask.id records = map Z.of_nat (seq 1 (List.length queries))
    /\ map ResearchTask.query records = queries
    /\ Forall (fun r => ResearchTask.status r = "pending"
                        /\ ResearchTask.result r = None) records.
Proof.
  intros Hdb Hempty.
  destruct (creates_rows queries w Hdb) as [Hdb' (news & Hrows & Hq & Hp)].
  rewrite Hempty in Hrows. simpl in Hrows.
  assert (Hlen : List.length news = List.length queries)
    by (rewrite <- Hq; now rewrite length_map).
  exists (map Main.ResearchTask_of (research_tasks (creates queries w))).
  split; [now rewrite (http_list_ok _ Hdb')|].
  rewrite Hrows.
  split; [now rewrite length_map|].
  split.
  { rewrite map_map. change (map (fun x => ResearchTask.id (Main.ResearchTask_of x)) news)
      with (map ResearchTaskORM.id news).
    destruct (history_numbered
                (map (fun q => HttpPostResearch (Some q)) queries) w) as [n Hn].
    { exists 0%nat. unfold task_ids. now rewrite Hempty. }
    fold (creates queries w) in Hn. unfold task_ids in Hn. rewrite Hrows in Hn.
    assert (n = List.length queries).
    { rewrite <- Hlen. rewrite <- (length_map ResearchTaskORM.id news), Hn.
      now rewrite length_map, length_seq. }
    subst n. exact Hn. }
  split.
  { rewrite map_map. exact Hq. }
  apply Forall_map. exact Hp.
Qed.

Lemma listing_after_creates_witness :
  db_fault (fresh_world endpoint_down) = None
  /\ research_tasks (fresh_world endpoint_down) = []
  /\ exists records : list ResearchTask.t,
       fst (Main.get_research_tasks
              (creates ["best laptop 2024"; "cheap flights"; EmptyString]
                 (fresh_world endpoint_down)))
       = inr records
       /\ List.length records = 3%nat
       /\ map ResearchTask.id records = [1; 2; 3]
       /\ map ResearchTask.query records
          = ["best laptop 2024"; "cheap flights"; EmptyString].
Proof.
  split; [reflexivity|]. split; [reflexivity|].
  destruct (listing_after_creates
              ["best laptop 2024"; "cheap flights"; EmptyString]
              (fresh_world endpoint_down) eq_refl eq_refl)
    as (records & H1 & H2 & H3 & H4 & _).
  exists records. repeat split; assumption.
Defined.

(** X6: when no two stored tasks share a key, every record of the HTTP
    listing is the task the store finds under the record's id, field by field;
    and an update through the HTTP adapter with that id is not answered with
    "not found": it returns the updated record. *)
Theorem listed_tasks_are_found_by_id
        (w : World) (records : list ResearchTask.t) (r : ResearchTask.t) :
  fst (Main.get_research_tasks w) = inr records ->
  NoDup (task_ids w) ->
  In r records ->
  (exists task : ResearchTaskORM.t,
      Db.first (ResearchTask.id r) (research_tasks w) = Some task
      /\ Main.ResearchTask_of task = r)
  /\ forall update : Main.ResearchTaskUpdate.t,
       exists (r' : ResearchTask.t) (w' : World),
         Main.update_research_task update (ResearchTask.id r) w = (inr r', w')
         /\ ResearchTask.id r' = ResearchTask.id r
         /\ ResearchTask.query r' = ResearchTask.query r
         /\ ResearchTask.timestamp r' = ResearchTask.timestamp r.
Proof.
  intros Hlist Hnodup Hin.
  destruct (http_list_returned w records Hlist) as [Hdb ->].
  apply in_map_iff in Hin. destruct Hin as (task & <- & Hin).
  assert (Hfirst : Db.first (ResearchTaskORM.id task) (research_tasks w) = Some task)
    by now apply first_of_member.
  split; [now exists task|].
  intros update. eexists. eexists.
  split; [exact (http_update_ok w update _ task Hdb Hfirst)|].
  cbn [Main.ResearchTask_of ResearchTask.id ResearchTask.query ResearchTask.timestamp].
  split; [apply patched_id|]. split; [apply patched_query|apply patched_timestamp].
Qed.

Lemma listed_tasks_are_found_by_id_witness :
  fst (Main.get_research_tasks done_world) = inr [Main.ResearchTask_of done_task]
  /\ NoDup (task_ids done_world)
  /\ In (Main.ResearchTask_of done_task) [Main.ResearchTask_of done_task]
  /\ exists task : ResearchTaskORM.t,
       Db.first 1 (research_tasks done_world) = Some task
       /\ Main.ResearchTask_of task = Main.ResearchTask_of done_task.
Proof.
  assert (Hnodup : NoDup (task_ids done_world))
    by (constructor; [intros []|constructor]).
  split; [reflexivity|]. split; [exact Hnodup|]. split; [now left|].
  exact (proj1 (listed_tasks_are_found_by_id done_world
                  [Main.ResearchTask_of done_task] (Main.ResearchTask_of done_task)
                  eq_refl Hnodup (or_introl eq_refl))).
Defined.

(** ** What the tool-call adapter never shows *)

Lemma first_without_results (k : Z) (rows : list ResearchTaskORM.t) :
  Db.first k (map (Db.set_result None) rows)
  = option_map (Db.set_result None) (Db.first k rows).
Proof.
  unfold Db.first. induction rows as [|r rows IH]; simpl; [reflexivity|].
  now destruct (Z.eqb (ResearchTaskORM.id r) k).
Qed.

Lemma next_id_without_results (rows : list ResearchTaskORM.t) :
  Db.next_id (map (Db.set_result None) rows) = Db.next_id rows.
Proof. unfold Db.next_id. now rewrite map_map. Qed.

Lemma task_lines_without_results (rows : list ResearchTaskORM.t) :
  map McpServer.task_line (map (Db.set_result None) rows)
  = map McpServer.task_line rows.
Proof. now rewrite map_map. Qed.

Lemma handle_call_tool_same_answer (name : string) (arguments : McpServer.Args.t)
      (w1 w2 : World) :
  fst (dispatch name arguments w1) = fst (dispatch name arguments w2) ->
  fst (McpServer.handle_call_tool name arguments w1)
  = fst (McpServer.handle_call_tool name arguments w2).
Proof.
  rewrite !handle_call_tool_try. unfold try_except.
  destruct (dispatch name arguments w1) as [[e1|r1] w1'],
           (dispatch name arguments w2) as [[e2|r2] w2']; simpl; congruence.
Qed.

Lemma tool_create_hides_results (arguments : McpServer.Args.t) (w : World) :
  fst (McpServer.create_research_task arguments (without_results w))
  = fst (McpServer.create_research_task arguments w).
Proof.
  destruct (McpServer.Args.query arguments) as [[|c q]|] eqn:Hq.
  - now rewrite !tool_create_rejects by now right.
  - assert (Hne : String c q <> EmptyString) by discriminate.
    destruct (db_fault w) as [msg|] eqn:Hdb.
    + now rewrite (tool_create_fault w arguments _ msg Hdb Hq Hne),
        (tool_create_fault (without_results w) arguments _ msg Hdb Hq Hne).
    + rewrite (tool_create_ok w arguments _ Hdb Hq Hne),
        (tool_create_ok (without_results w) arguments _ Hdb Hq Hne).
      cbn [fst pending_task ResearchTaskORM.id without_results
             research_tasks set_research_tasks].
      now rewrite next_id_without_results.
  - now rewrite !tool_create_rejects by now left.
Qed.

Lemma tool_list_hides_results (w : World) :
  fst (McpServer.list_research_tasks (without_results w))
  = fst (McpServer.list_research_tasks w).
Proof.
  destruct (db_fault w) as [msg|] eqn:Hdb.
  - now rewrite (tool_list_fault w msg Hdb), (tool_list_fault (without_results w) msg Hdb).
  - rewrite (tool_list_ok w Hdb), (tool_list_ok (without_results w) Hdb).
    cbn [fst without_results research_tasks set_research_tasks].
    rewrite task_lines_without_results.
    now destruct (research_tasks w).
Qed.

Lemma tool_update_hides_results (arguments : McpServer.Args.t) (w : World) :
  fst (McpServer.update_research_task arguments (without_results w))
  = fst (McpServer.update_research_task arguments w).
Proof.
  destruct (McpServer.Args.task_id arguments) as [task_id|] eqn:Hid.
  - destruct (Z.eq_dec task_id 0) as [->|Hnz].
    + now rewrite !tool_update_required by now right.
    + destruct (db_fault w) as [msg|] eqn:Hdb.
      * now rewrite (tool_update_fault w arguments task_id msg Hdb Hid Hnz),
          (tool_update_fault (without_results w) arguments task_id msg Hdb Hid Hnz).
      * assert (Hhidden : Db.first task_id (research_tasks (without_results w))
                          = option_map (Db.set_result None)
                              (Db.first task_id (research_tasks w)))
          by apply first_without_results.
        destruct (Db.first task_id (research_tasks w)) as [task|] eqn:Hfirst.
        -- rewrite (tool_update_ok w arguments task_id task Hdb Hid Hnz Hfirst),
             (tool_update_ok (without_results w) arguments task_id _ Hdb Hid Hnz Hhidden).
           cbn [fst]. now rewrite !patched_status.
        -- now rewrite (tool_update_missing w arguments task_id Hdb Hid Hnz Hfirst),
             (tool_update_missing (without_results w) arguments task_id Hdb Hid Hnz
                Hhidden).
  - now rewrite !tool_update_required by now left.
Qed.

Lemma generate_same_text (self : OllamaClient.t) (prompt model : string)
      (temperature : Q) (max_tokens : Z) (w1 w2 : World) :
  endpoint w1 = endpoint w2 ->
  posted w1 = posted w2 ->
  fst (OllamaClient.generate self prompt model temperature max_tokens w1)
  = fst (OllamaClient.generate self prompt model temperature max_tokens w2).
Proof.
  intros He Hp.
  unfold OllamaClient.generate, try_except, bind, OllamaClient.post.
  rewrite He, Hp.
  destruct (endpoint w2 (List.length (posted w2))) as [msg|r]; simpl; [reflexivity|].
  unfold OllamaClient.raise_for_status.
  destruct (Z.leb 400 (status_code r) && Z.ltb (status_code r) 500); simpl;
    [reflexivity|].
  destruct (Z.leb 500 (status_code r) && Z.ltb (status_code r) 600); simpl;
    [reflexivity|].
  unfold OllamaClient.response_json.
  now destruct (body r) as [msg|[ty|members]].
Qed.

Lemma tool_analyze_hides_results (arguments : McpServer.Args.t) (w : World) :
  fst (McpServer.analyze_content arguments (without_results w))
  = fst (McpServer.analyze_content arguments w).
Proof.
  destruct (McpServer.Args.content arguments) as [[|c s]|] eqn:Hc.
  - now rewrite !tool_analyze_rejects by now right.
  - assert (Hne : String c s <> EmptyString) by discriminate.
    destruct (tool_analyze_runs w arguments _ Hc Hne) as (text & Hgen & E).
    destruct (tool_analyze_runs (without_results w) arguments _ Hc Hne)
      as (text' & Hgen' & E').
    rewrite E, E'. cbn [fst].
    assert (Htext : inr (B := option string) text' = inr (A := Exception) text);
      [|now inversion Htext].
    pose proof (generate_same_text OllamaClient.new (analysis_prompt (String c s))
                  "llama3.2" OllamaClient.default_temperature
                  OllamaClient.default_max_tokens (without_results w) w
                  eq_refl eq_refl) as Hsame.
    now rewrite Hgen, Hgen' in Hsame.
  - now rewrite !tool_analyze_rejects by now left.
Qed.

(** X7: no answer of the tool-call adapter depends on a stored result: for
    every tool name and every argument dictionary, the dispatcher answers in a
    world as it answers in the same world with every stored result blanked.
    The tools give no way to read the result of a task. *)
Theorem tool_answers_do_not_show_results
        (name : string) (arguments : McpServer.Args.t) (w : World) :
  fst (McpServer.handle_call_tool name arguments (without_results w))
  = fst (McpServer.handle_call_tool name arguments w).
Proof.
  apply handle_call_tool_same_answer. unfold dispatch.
  destruct (String.eqb name "create_research_task"); [apply tool_create_hides_results|].
  destruct (String.eqb name "list_research_tasks"); [apply tool_list_hides_results|].
  destruct (String.eqb name "update_research_task"); [apply tool_update_hides_results|].
  destruct (String.eqb name "analyze_content"); [apply tool_analyze_hides_results|].
  reflexivity.
Qed.

(** The listing of a store with a completed task: the text is the same
    with the result blanked, while the HTTP listing shows the result. *)
Example tool_listing_hides_result :
  fst (McpServer.handle_call_tool "list_research_tasks"
         {| McpServer.Args.query := None;
            McpServer.Args.task_id := None;
            McpServer.Args.status := None;
            McpServer.Args.result := None;
            McpServer.Args.content := None |}
         (without_results done_world))
  = inr (McpServer.text_result
           ("Research Tasks:" ++ Py.nl
              ++ "ID: 1, Query: best laptop 2024, Status: completed"))
  /\ fst (Main.get_research_tasks done_world)
     <> fst (Main.get_research_tasks (without_results done_world)).
Proof. split; [reflexivity|discriminate]. Qed.

(** ** The tools announced and the tools dispatched *)

Lemma handle_call_tool_unknown (name : string) (arguments : McpServer.Args.t) (w : World) :
  ~ In name (map McpServer.Tool.name
               (McpServer.ListToolsResult.tools McpServer.handle_list_tools)) ->
  McpServer.handle_call_tool name arguments w
  = (inr (McpServer.text_result ("Unknown tool: " ++ name)), w).
Proof.
  simpl. intros H.
  apply handle_call_tool_returns. unfold dispatch.
  destruct (String.eqb_spec name "create_research_task");
    [exfalso; apply H; subst; auto 6|].
  destruct (String.eqb_spec name "list_research_tasks");
    [exfalso; apply H; subst; auto 6|].
  destruct (String.eqb_spec name "update_research_task");
    [exfalso; apply H; subst; auto 6|].
  destruct (String.eqb_spec name "analyze_content");
    [exfalso; apply H; subst; auto 6|].
  reflexivity.
Qed.

(** X8: the tools the server announces and the dispatcher agree.  The
    four names announced are distinct; a call of a name that is not announced
    is answered ["Unknown tool: <name>"] and changes nothing; every key a
    tool's schema requires is one of the properties the schema declares; and a
    call of an announced tool without a key its schema requires is answered
    ["Error: <key> is required"] and changes nothing. *)
Theorem announced_tools_match_dispatcher
        (name : string) (arguments : McpServer.Args.t) (w : World) :
  NoDup (map McpServer.Tool.name
           (McpServer.ListToolsResult.tools McpServer.handle_list_tools))
  /\ (~ In name (map McpServer.Tool.name
                   (McpServer.ListToolsResult.tools McpServer.handle_list_tools)) ->
      McpServer.handle_call_tool name arguments w
      = (inr (McpServer.text_result ("Unknown tool: " ++ name)), w))
  /\ (forall (tool : McpServer.Tool.t) (key : string),
         In tool (McpServer.ListToolsResult.tools McpServer.handle_list_tools) ->
         In key (McpServer.InputSchema.required (McpServer.Tool.inputSchema tool)) ->
         In key (map McpServer.SchemaProperty.name
                   (McpServer.InputSchema.properties (McpServer.Tool.inputSchema tool)))
         /\ (lacks arguments key ->
             McpServer.handle_call_tool (McpServer.Tool.name tool) arguments w
             = (inr (McpServer.text_result ("Error: " ++ key ++ " is required")), w))).
Proof.
  split.
  { simpl. repeat constructor; simpl; intuition discriminate. }
  split; [apply handle_call_tool_unknown|].
  intros tool key Htool Hkey.
  simpl in Htool.
  destruct Htool as [<-|[<-|[<-|[<-|[]]]]]; simpl in Hkey;
    try contradiction; destruct Hkey as [<-|[]].
  - split; [now left|].
    intros [[_ H]|[[E _]|[[E _]|[[E _]|[E _]]]]]; try discriminate E.
    apply handle_call_tool_returns. rewrite dispatch_create.
    apply tool_create_rejects. now left.
  - split; [now left|].
    intros [[E _]|[[_ H]|[[E _]|[[E _]|[E _]]]]]; try discriminate E.
    apply handle_call_tool_returns. rewrite dispatch_update.
    apply tool_update_required. now left.
  - split; [now left|].
    intros [[E _]|[[E _]|[[E _]|[[E _]|[_ H]]]]]; try discriminate E.
    apply handle_call_tool_returns. rewrite dispatch_analyze.
    apply tool_analyze_rejects. now left.
Qed.

(** ** The write-back and the LLM *)

(** X9: the background write-back calls the LLM only for a task it finds.
    With the database out of order it raises, and for an id that is not in the
    store it returns, in both cases leaving the world as it was: nothing is
    posted.  For a task it finds it posts exactly one request, to
    [/api/generate] with the model ["codellama"], the prompt built from the
    job's query and the timeout 60. *)
Theorem write_back_calls_llm_only_for_stored_task
        (w : World) (task_id : Z) (query : string) :
  (forall msg : string,
      db_fault w = Some msg ->
      Main.llm_generate_scraping_strategy task_id query w
      = (inl (OperationalError msg), w))
  /\ (db_fault w = None ->
      Db.first task_id (research_tasks w) = None ->
      Main.llm_generate_scraping_strategy task_id query w = (inr tt, w))
  /\ (db_fault w = None ->
      forall task : ResearchTaskORM.t,
        Db.first task_id (research_tasks w) = Some task ->
        posted (snd (Main.llm_generate_scraping_strategy task_id query w))
        = (posted w
             ++ [ {| url := "http://localhost:11434/api/generate";
                     json :=
                       {| model := "codellama";
                          prompt :=
                            "Generate a robust web scraping strategy for the following research query: '"
                              ++ query ++ "'. Include anti-detection techniques.";
                          options := {| temperature := (2 # 10)%Q;
                                        num_predict := 512 |} |};
                     timeout := 60 |} ])%list).
Proof.
  split; [intros msg Hdb; now apply write_back_job_fault|].
  split; [intros Hdb Hfirst; now apply write_back_job_missing|].
  intros Hdb task Hfirst.
  destruct (write_back_job_ok w task_id query task Hdb Hfirst) as (text & _ & E).
  now rewrite E.
Qed.


(** ** Updates composed *)

Lemma patched_twice (status result : option string) (task : ResearchTaskORM.t) :
  patched status result (patched status result task) = patched status result task.
Proof. now destruct status, result. Qed.

Lemma write_back_twice (task : ResearchTaskORM.t) (rows : list ResearchTaskORM.t) :
  Db.write_back task (Db.write_back task rows) = Db.write_back task rows.
Proof.
  unfold Db.write_back. rewrite map_map. apply map_ext. intros r. cbv beta.
  destruct (Z.eqb (ResearchTaskORM.id r) (ResearchTaskORM.id task)) eqn:E.
  - now rewrite Z.eqb_refl.
  - now rewrite E.
Qed.

Lemma write_back_commute (t1 t2 : ResearchTaskORM.t) (rows : list ResearchTaskORM.t) :
  ResearchTaskORM.id t1 <> ResearchTaskORM.id t2 ->
  Db.write_back t1 (Db.write_back t2 rows) = Db.write_back t2 (Db.write_back t1 rows).
Proof.
  intros Hne. unfold Db.write_back. rewrite !map_map. apply map_ext. intros r.
  cbv beta.
  assert (H12 : Z.eqb (ResearchTaskORM.id t1) (ResearchTaskORM.id t2) = false)
    by now apply Z.eqb_neq.
  assert (H21 : Z.eqb (ResearchTaskORM.id t2) (ResearchTaskORM.id t1) = false)
    by (apply Z.eqb_neq; congruence).
  destruct (Z.eqb (ResearchTaskORM.id r) (ResearchTaskORM.id t2)) eqn:E2;
    destruct (Z.eqb (ResearchTaskORM.id r) (ResearchTaskORM.id t1)) eqn:E1;
    rewrite ?H12, ?H21, ?E1, ?E2; try reflexivity.
  apply Z.eqb_eq in E1, E2. congruence.
Qed.

(** X11: an update is idempotent.  Made a second time in the world the
    first one left, the same update returns what it returned the first time
    and leaves that world as it is, on the HTTP adapter and on the tool-call
    adapter, whether or not the task exists and the database works. *)
Theorem update_twice_is_update_once
        (w : World) (update : Main.ResearchTaskUpdate.t) (task_id : Z)
        (arguments : McpServer.Args.t) :
  Main.update_research_task update task_id
    (snd (Main.update_research_task update task_id w))
  = Main.update_research_task update task_id w
  /\ McpServer.update_research_task arguments
       (snd (McpServer.update_research_task arguments w))
     = McpServer.update_research_task arguments w.
Proof.
  split.
  - destruct (db_fault w) as [msg|] eqn:Hdb.
    + rewrite (http_update_fault w update task_id msg Hdb); cbn [snd]; now rewrite (http_update_fault w update task_id msg Hdb).
    + destruct (Db.first task_id (research_tasks w)) as [task|] eqn:Hfirst.
      * rewrite (http_update_ok w update task_id task Hdb Hfirst). cbn [snd].
        set (task' := patched (Main.ResearchTaskUpdate.status update)
                        (Main.ResearchTaskUpdate.result update) task).
        assert (Hfirst' : Db.first task_id
                            (research_tasks
                               (set_research_tasks
                                  (Db.write_back task' (research_tasks w)) w))
                          = Some task') by now apply first_after_patch.
        rewrite (http_update_ok
                   (set_research_tasks (Db.write_back task' (research_tasks w)) w)
                   update task_id task' Hdb Hfirst').
        subst task'. rewrite patched_twice.
        cbn [research_tasks set_research_tasks]. rewrite write_back_twice.
        reflexivity.
      * rewrite (http_update_missing w update task_id Hdb Hfirst); cbn [snd]; now rewrite (http_update_missing w update task_id Hdb Hfirst).
  - destruct (McpServer.Args.task_id arguments) as [id|] eqn:Hid.
    + destruct (Z.eq_dec id 0) as [->|Hnz].
      * rewrite (tool_update_required w arguments (or_intror Hid)); cbn [snd]; now rewrite (tool_update_required w arguments (or_intror Hid)).
      * destruct (db_fault w) as [msg|] eqn:Hdb.
        -- rewrite (tool_update_fault w arguments id msg Hdb Hid Hnz); cbn [snd]; now rewrite (tool_update_fault w arguments id msg Hdb Hid Hnz).
        -- destruct (Db.first id (research_tasks w)) as [task|] eqn:Hfirst.
           ++ rewrite (tool_update_ok w arguments id task Hdb Hid Hnz Hfirst). cbn [snd].
              set (task' := patched
                              (Py.truthy Py.bool_str (McpServer.Args.status arguments))
                              (Py.truthy Py.bool_str (McpServer.Args.result arguments))
                              task).
              assert (Hfirst' : Db.first id
                                  (research_tasks
                                     (set_research_tasks
                                        (Db.write_back task' (research_tasks w)) w))
                                = Some task') by now apply first_after_patch.
              rewrite (tool_update_ok
                         (set_research_tasks (Db.write_back task' (research_tasks w)) w)
                         arguments id task' Hdb Hid Hnz Hfirst').
              subst task'. rewrite patched_twice.
              cbn [research_tasks set_research_tasks]. rewrite write_back_twice.
              reflexivity.
           ++ rewrite (tool_update_missing w arguments id Hdb Hid Hnz Hfirst); cbn [snd]; now rewrite (tool_update_missing w arguments id Hdb Hid Hnz Hfirst).
    + rewrite (tool_update_required w arguments (or_introl Hid)); cbn [snd]; now rewrite (tool_update_required w arguments (or_introl Hid)).
Qed.

Lemma http_update_elsewhere (w : World) (update : Main.ResearchTaskUpdate.t)
      (task_id other : Z) :
  task_id <> other ->
  db_fault (snd (Main.update_research_task update task_id w)) = db_fault w
  /\ Db.first other (research_tasks (snd (Main.update_research_task update task_id w)))
     = Db.first other (research_tasks w).
Proof.
  intros Hne.
  destruct (db_fault w) as [msg|] eqn:Hdb.
  - rewrite (http_update_fault w update task_id msg Hdb). now split.
  - destruct (Db.first task_id (research_tasks w)) as [task|] eqn:Hfirst.
    + rewrite (http_update_ok w update task_id task Hdb Hfirst).
      split; [exact Hdb|]. cbn [snd research_tasks set_research_tasks].
      apply first_write_back_other.
      rewrite patched_id, (first_id _ _ _ Hfirst). exact Hne.
    + rewrite (http_update_missing w update task_id Hdb Hfirst). now split.
Qed.

(** X12: updates of two different tasks commute.  Through the HTTP
    adapter, the two updates made in either order leave the same world, and
    each returns what it returns when made alone. *)
Theorem updates_of_different_tasks_commute
        (w : World) (u1 u2 : Main.ResearchTaskUpdate.t) (k1 k2 : Z) :
  k1 <> k2 ->
  snd (Main.update_research_task u2 k2 (snd (Main.update_research_task u1 k1 w)))
  = snd (Main.update_research_task u1 k1 (snd (Main.update_research_task u2 k2 w)))
  /\ fst (Main.update_research_task u2 k2 (snd (Main.update_research_task u1 k1 w)))
     = fst (Main.update_research_task u2 k2 w)
  /\ fst (Main.update_research_task u1 k1 (snd (Main.update_research_task u2 k2 w)))
     = fst (Main.update_research_task u1 k1 w).
Proof.
  intros Hne.
  assert (Hne' : k2 <> k1) by congruence.
  destruct (http_update_elsewhere w u1 k1 k2 Hne) as [Hdb1 Hf1].
  destruct (http_update_elsewhere w u2 k2 k1 Hne') as [Hdb2 Hf2].
  destruct (db_fault w) as [msg|] eqn:Hdb.
  - rewrite (http_update_fault w u1 k1 msg Hdb), (http_update_fault w u2 k2 msg Hdb).
    cbn [snd].
    now rewrite (http_update_fault w u1 k1 msg Hdb), (http_update_fault w u2 k2 msg Hdb).
  - destruct (Db.first k1 (research_tasks w)) as [t1|] eqn:H1;
      destruct (Db.first k2 (research_tasks w)) as [t2|] eqn:H2.
    + rewrite (http_update_ok _ u2 k2 t2 Hdb1 Hf1), (http_update_ok _ u1 k1 t1 Hdb2 Hf2).
      rewrite (http_update_ok w u1 k1 t1 Hdb H1), (http_update_ok w u2 k2 t2 Hdb H2).
      cbn [snd fst research_tasks set_research_tasks].
      split; [|now split].
      unfold set_research_tasks. cbn [db_fault utcnow background endpoint posted].
      f_equal. apply write_back_commute.
      rewrite !patched_id, (first_id _ _ _ H1), (first_id _ _ _ H2). congruence.
    + rewrite (http_update_missing _ u2 k2 Hdb1 Hf1), (http_update_ok _ u1 k1 t1 Hdb2 Hf2).
      rewrite (http_update_ok w u1 k1 t1 Hdb H1), (http_update_missing w u2 k2 Hdb H2).
      now repeat split.
    + rewrite (http_update_ok _ u2 k2 t2 Hdb1 Hf1), (http_update_missing _ u1 k1 Hdb2 Hf2).
      rewrite (http_update_missing w u1 k1 Hdb H1), (http_update_ok w u2 k2 t2 Hdb H2).
      now repeat split.
    + rewrite (http_update_missing _ u2 k2 Hdb1 Hf1), (http_update_missing _ u1 k1 Hdb2 Hf2).
      rewrite (http_update_missing w u1 k1 Hdb H1), (http_update_missing w u2 k2 Hdb H2).
      now repeat split.
Qed.

Lemma updates_of_different_tasks_commute_witness :
  1 <> 2
  /\ snd (Main.update_research_task
            {| Main.ResearchTaskUpdate.status := None;
               Main.ResearchTaskUpdate.result := Some "found" |} 2
            (snd (Main.update_research_task
                    {| Main.ResearchTaskUpdate.status := Some "archived";
                       Main.ResearchTaskUpdate.result := None |} 1
                    (creates ["a"; "b"] (fresh_world endpoint_down)))))
     = snd (Main.update_research_task
              {| Main.ResearchTaskUpdate.status := Some "archived";
                 Main.ResearchTaskUpdate.result := None |} 1
              (snd (Main.update_research_task
                      {| Main.ResearchTaskUpdate.status := None;
                         Main.ResearchTaskUpdate.result := Some "found" |} 2
                      (creates ["a"; "b"] (fresh_world endpoint_down))))).
Proof.
  assert (Hne : 1 <> 2) by discriminate.
  split; [exact Hne|].
  exact (proj1 (updates_of_different_tasks_commute
                  (creates ["a"; "b"] (fresh_world endpoint_down))
                  {| Main.ResearchTaskUpdate.status := Some "archived";
                     Main.ResearchTaskUpdate.result := None |}
                  {| Main.ResearchTaskUpdate.status := None;
                     Main.ResearchTaskUpdate.result := Some "found" |}
                  1 2 Hne)).
Defined.

(** ** The dashboard *)

(** X13: an update from the dashboard writes both fields.  For a task in
    the store, on a working database, the dashboard's update is answered with
    success and leaves the task with the status and the result as entered,
    whatever they were before; with the result box empty, as it is by default,
    the stored result becomes the empty string and the task's result pane
    shows ["No result yet."]. *)
Theorem dashboard_update_overwrites_both_fields
        (w : World) (selected_id : Z) (task : ResearchTaskORM.t)
        (new_status new_result : string) :
  db_fault w = None ->
  Db.first selected_id (research_tasks w) = Some task ->
  exists (w' : World) (task' : ResearchTaskORM.t),
    Dashboard.update_task selected_id new_status new_result w
    = (Dashboard.success "Task updated!", w')
    /\ Db.first selected_id (research_tasks w') = Some task'
    /\ ResearchTaskORM.status task' = new_status
    /\ ResearchTaskORM.result task' = Some new_result
    /\ ResearchTaskORM.query task' = ResearchTaskORM.query task
    /\ (new_result = EmptyString ->
        Dashboard.result_shown (Main.ResearchTask_of task') = "No result yet.").
Proof.
  intros Hdb Hfirst.
  set (update := {| Main.ResearchTaskUpdate.status := Some new_status;
                    Main.ResearchTaskUpdate.result := Some new_result |}).
  set (task' := patched (Some new_status) (Some new_result) task).
  exists (set_research_tasks (Db.write_back task' (research_tasks w)) w), task'.
  split.
  { unfold Dashboard.update_task. fold update.
    now rewrite (http_update_ok w update selected_id task Hdb Hfirst). }
  split; [now apply first_after_patch|].
  split; [reflexivity|]. split; [reflexivity|]. split; [reflexivity|].
  intros ->. reflexivity.
Qed.

(** Task 1 is completed with the result ["X"]; the dashboard's update with
    its default inputs erases the result. *)
Lemma dashboard_update_overwrites_both_fields_witness :
  db_fault done_world = None
  /\ Db.first 1 (research_tasks done_world) = Some done_task
  /\ exists (w' : World) (task' : ResearchTaskORM.t),
       Dashboard.update_task 1 Dashboard.default_new_status
         Dashboard.default_new_result done_world
       = (Dashboard.success "Task updated!", w')
       /\ Db.first 1 (research_tasks w') = Some task'
       /\ ResearchTaskORM.result task' = Some EmptyString
       /\ Dashboard.result_shown (Main.ResearchTask_of task') = "No result yet.".
Proof.
  split; [reflexivity|]. split; [reflexivity|].
  destruct (dashboard_update_overwrites_both_fields done_world 1 done_task
              Dashboard.default_new_status Dashboard.default_new_result
              eq_refl eq_refl)
    as (w' & task' & H1 & H2 & _ & H4 & _ & H6).
  exists w', task'. repeat split; try assumption. now apply H6.
Defined.

(** X14: the dashboard never creates a task with an empty query.  Whatever
    is entered, every task in the store after the form is handled was there
    before, or is a pending task without a result whose query is the non-empty
    query entered; when the form is not submitted or the query is empty,
    nothing is sent and the world is as it was. *)
Theorem dashboard_submits_nonempty_queries_only
        (submitted : bool) (query : string) (w : World) :
  (submitted = false \/ query = EmptyString ->
   Dashboard.submit_task submitted query w = (Dashboard.nothing, w))
  /\ forall t : ResearchTaskORM.t,
       In t (research_tasks (snd (Dashboard.submit_task submitted query w))) ->
       In t (research_tasks w)
       \/ (query <> EmptyString
           /\ ResearchTaskORM.query t = query
           /\ ResearchTaskORM.status t = "pending"
           /\ ResearchTaskORM.result t = None).
Proof.
  split.
  { unfold Dashboard.submit_task. intros [->| ->]; [reflexivity|].
    now rewrite andb_false_r. }
  intros t. unfold Dashboard.submit_task.
  destruct submitted; [|simpl; tauto].
  destruct query as [|c q]; [simpl; tauto|].
  cbn [andb Py.bool_str].
  destruct (db_fault w) as [msg|] eqn:Hdb.
  - simpl Main.post_research. rewrite (http_create_fault w _ msg Hdb). simpl. tauto.
  - simpl Main.post_research. rewrite (http_create_ok w _ Hdb).
    cbn [snd research_tasks set_background set_research_tasks].
    intros Hin. apply in_app_or in Hin. destruct Hin as [Hin|[<-|[]]].
    + now left.
    + right. repeat split. discriminate.
Qed.


(** ** A direct update racing the write-back *)



